(** * GroceryGo: calendar-aware day scoring and grocery pickup optimisation

    A shallow embedding of the scoring engine
    ([src/services/scoringEngine.ts]), the shared calendar types
    ([src/types/calendar.ts]), the shelf-life table
    ([src/data/ingredientShelfLife.ts]) and the pickup optimiser
    ([src/services/pickupOptimizer.ts]), followed by the properties proved
    about them.

    Conventions of the embedding.
    - A JavaScript [number] is an exact rational ([Q]); every quantity the
      code computes is a finite sum, product or quotient of integers, so no
      rounding, NaN or infinity is modelled.  Equality of numbers is [==].
    - A (valid) [Date] is its time value: an integer number of milliseconds
      since the epoch ([Z]).
    - Local time is UTC plus a fixed offset [tz] (in milliseconds); zones
      whose offset changes during the week are outside the model.
    - Arrays are lists.  Where the code sorts an array in place, the store
      that holds the arrays is modelled as well ([PickupOptimizer.Store]). *)

From Stdlib Require Import ZArith QArith Qround Qminmax.
From Stdlib Require Import List String Ascii Bool Lia Lqa Permutation Sorted.
From Stdlib Require Import DecimalString.
Import ListNotations.

(** ** The JavaScript built-ins the code relies on *)

Module Js.

Definition msPerSecond : Z := 1000.
Definition msPerMinute : Z := 60000.
Definition msPerHour : Z := 3600000.
Definition msPerDay : Z := 86400000.

(** [Math.round]: the nearest integer, halves going up. *)
Definition Math_round (x : Q) : Q := inject_Z (Qfloor (x + (1 # 2))).

Definition Math_min (x y : Q) : Q := Qmin x y.
Definition Math_max (x y : Q) : Q := Qmax x y.

(** [Math.max(...xs)] on a non-empty array; the caller guards the empty
    one. *)
Definition Math_max_spread (xs : list Q) : Q :=
  match xs with
  | [] => 0
  | x :: rest => fold_left Math_max rest x
  end.

(** [Array.prototype.sort(cmp)].  The language fixes the result for a
    consistent comparator: the elements in comparator order, equal ones
    in their original order (the sort is stable).  Insertion from the
    right computes exactly that array. *)
Fixpoint sort_insert {A : Type} (cmp : A -> A -> Q) (x : A) (l : list A)
  : list A :=
  match l with
  | [] => [x]
  | y :: ys =>
      if Qle_bool (cmp x y) 0 then x :: y :: ys
      else y :: sort_insert cmp x ys
  end.

Definition Array_sort {A : Type} (cmp : A -> A -> Q) (l : list A) : list A :=
  fold_right (sort_insert cmp) [] l.

(** [Array.prototype.map] hands the callback the element and its index. *)
Fixpoint map_from {A B : Type} (f : A -> nat -> B) (i : nat) (l : list A)
  : list B :=
  match l with
  | [] => []
  | x :: xs => f x i :: map_from f (S i) xs
  end.

Definition Array_map {A B : Type} (f : A -> nat -> B) (l : list A) : list B :=
  map_from f 0 l.

(** [Array.prototype.join]. *)
Fixpoint Array_join (sep : string) (parts : list string) : string :=
  match parts with
  | [] => EmptyString
  | [p] => p
  | p :: rest => p ++ sep ++ Array_join sep rest
  end.

(** [[...new Set(xs)]]: the first occurrence of every value, in order. *)
Fixpoint Set_spread (seen xs : list string) : list string :=
  match xs with
  | [] => []
  | x :: rest =>
      if existsb (String.eqb x) seen then Set_spread seen rest
      else x :: Set_spread (x :: seen) rest
  end.

(** Decimal rendering of an integer, as template literals print it. *)
Definition String_of_int (n : Z) : string :=
  NilZero.string_of_int (Z.to_int n).

(** [x.toFixed(1)]: the sign is split off, the integer [n] nearest to
    [10 * x] is taken (the larger one on a tie) and printed with one
    digit after the point.  (The exponent notation of values from
    [1e21] on is not modelled.) *)
Definition toFixed1 (x : Q) : string :=
  let neg := negb (Qle_bool 0 x) in
  let ax := if neg then Qopp x else x in
  let n := Qfloor (ax * 10 + (1 # 2)) in
  ((if neg then "-" else "") ++
   String_of_int (n / 10) ++ "." ++ String_of_int (n mod 10))%string.

(** *** Dates in a zone at [tz] milliseconds east of UTC *)

Section Zone.
Variable tz : Z.

(** The civil day number that [getUTCFullYear], [getUTCMonth] and
    [getUTCDate] together denote. *)
Definition utcDay (t : Z) : Z := (t / msPerDay)%Z.

(** The civil day number and the time of day read through the local
    getters. *)
Definition localDay (t : Z) : Z := ((t + tz) / msPerDay)%Z.
Definition timeWithinLocalDay (t : Z) : Z := ((t + tz) mod msPerDay)%Z.

(** [new Date(year, month, day, h, m, s, ms)]: wall-clock time on a
    civil day, given here by its day number. *)
Definition Date_local (day h m s ms : Z) : Z :=
  (day * msPerDay + h * msPerHour + m * msPerMinute + s * msPerSecond
   + ms - tz)%Z.

(** [d.setHours(h, m, s, ms)] keeps the local day of [d]. *)
Definition setHours (t h m s ms : Z) : Z :=
  Date_local (localDay t) h m s ms.

(** [d.setDate(d.getDate() + i)]: the local day moves by [i], the
    local time of day stays. *)
Definition setDate_plus (t i : Z) : Z :=
  ((localDay t + i) * msPerDay + timeWithinLocalDay t - tz)%Z.

(** [getDay] in local time; day 0 of the epoch was a Thursday. *)
Definition getDay (t : Z) : Z := ((localDay t + 4) mod 7)%Z.

(** [d.toLocaleDateString('en-US', { weekday: 'long' })]. *)
Definition weekdayLong (t : Z) : string :=
  match getDay t with
  | 0%Z => "Sunday"
  | 1%Z => "Monday"
  | 2%Z => "Tuesday"
  | 3%Z => "Wednesday"
  | 4%Z => "Thursday"
  | 5%Z => "Friday"
  | _ => "Saturday"
  end.
End Zone.

End Js.

(** ** [src/types/calendar.ts] *)

Module Calendar.

Inductive CalendarSource : Type := google | apple.

Inductive ComplexityTier : Type := quick | standard | exploratory.

Record EventMetadata : Type := {
  location : option string;
  description : option string;
  recurrence : option string
}.

Record CalendarEvent : Type := {
  id : string;
  title : string;
  startTime : Z;
  endTime : Z;
  isAllDay : bool;
  source : CalendarSource;
  metadata : EventMetadata
}.

Record TierRange : Type := { min : Q; max : Q }.

Definition TIER_THRESHOLDS (t : ComplexityTier) : TierRange :=
  match t with
  | exploratory => {| min := 0; max := 35 |}
  | standard => {| min := 36; max := 65 |}
  | quick => {| min := 66; max := 100 |}
  end.

Definition tierFromScore (score : Q) : ComplexityTier :=
  if Qle_bool score (max (TIER_THRESHOLDS exploratory)) then exploratory
  else if Qle_bool score (max (TIER_THRESHOLDS standard)) then standard
  else quick.

(** [rawData] keeps its entries in insertion order; every value the
    engine stores there is a number. *)
Record SignalResult : Type := {
  score : Q;
  reasoning : string;
  rawData : list (string * Q)
}.

Record ScoreSignal : Type := {
  name : string;
  weight : Q;
  compute : list CalendarEvent -> Z -> SignalResult
}.

Record DayScore : Type := {
  date : Z;
  finalScore : Q;
  tier : ComplexityTier;
  signalBreakdown : list SignalResult
}.

(** Reading a property of a [rawData] object. *)
Fixpoint rawGet (key : string) (raw : list (string * Q)) : option Q :=
  match raw with
  | [] => None
  | (k, v) :: rest => if String.eqb k key then Some v else rawGet key rest
  end.

End Calendar.

(** ** [src/services/scoringEngine.ts] *)

Module ScoringEngine.
Import Js Calendar.

(** Constants *)
Definition DINNER_PREP_START : Z := 17.
Definition DINNER_PREP_END : Z := 19.
Definition LUNCH_START : Z := 11.
Definition LUNCH_END : Z := 13.
Definition WAKING_HOURS : Z := 14.
Definition BACK_TO_BACK_GAP_MINUTES : Z := 15.

(** Max point allocations *)
Definition MAX_COMMITTED_HOURS_PTS : Z := 40.
Definition MAX_BACK_TO_BACK_PTS : Z := 25.
Definition MAX_MEAL_CONFLICT_PTS : Z := 20.
Definition MAX_FREE_BLOCK_PTS : Z := 15.

(** Calculates overlap in hours between two time ranges. *)
Definition hoursOverlap (aStart aEnd bStart bEnd : Z) : Q :=
  let overlapStart := if (aStart >? bStart)%Z then aStart else bStart in
  let overlapEnd := if (aEnd <? bEnd)%Z then aEnd else bEnd in
  let diffMs := (overlapEnd - overlapStart)%Z in
  if (diffMs >? 0)%Z then inject_Z diffMs / inject_Z msPerHour else 0.

(** The [for] loop that counts adjacent pairs of the sorted events whose
    gap is at most [BACK_TO_BACK_GAP_MINUTES]. *)
Fixpoint countBackToBack (sorted : list CalendarEvent) : Z :=
  match sorted with
  | e :: (next :: _) as rest =>
      let gapMs := (startTime next - endTime e)%Z in
      let gapMinutes := inject_Z gapMs / inject_Z msPerMinute in
      ((if Qle_bool gapMinutes (inject_Z BACK_TO_BACK_GAP_MINUTES)
        then 1 else 0) + countBackToBack rest)%Z
  | _ => 0%Z
  end.

(** The duration the [reduce] callback adds for one event. *)
Definition durationHours (e : CalendarEvent) : Q :=
  let durationMs := (endTime e - startTime e)%Z in
  inject_Z durationMs / inject_Z msPerHour.

Definition totalCommittedHoursOf (sorted : list CalendarEvent) : Q :=
  fold_left (fun sum e => sum + durationHours e) sorted 0.

Definition committedPtsOf (totalCommittedHours : Q) : Q :=
  Math_min (inject_Z MAX_COMMITTED_HOURS_PTS)
    ((totalCommittedHours / inject_Z WAKING_HOURS)
     * inject_Z MAX_COMMITTED_HOURS_PTS).

Definition b2bPtsOf (sorted : list CalendarEvent) (backToBackCount : Z) : Q :=
  let maxPossibleB2B := Z.max (Z.of_nat (List.length sorted) - 1) 1 in
  (inject_Z backToBackCount / inject_Z maxPossibleB2B)
  * inject_Z MAX_BACK_TO_BACK_PTS.

(** Summed overlap of the events with one window. *)
Definition windowOverlapHours (sorted : list CalendarEvent)
    (windowStart windowEnd : Z) : Q :=
  fold_left
    (fun acc e =>
       acc + hoursOverlap (startTime e) (endTime e) windowStart windowEnd)
    sorted 0.

Definition mealPtsOf (dinnerOverlapHours lunchOverlapHours : Q) : Q :=
  let dinnerWindowSize := (DINNER_PREP_END - DINNER_PREP_START)%Z in
  let lunchWindowSize := (LUNCH_END - LUNCH_START)%Z in
  let dinnerConflictRatio :=
    Math_min (dinnerOverlapHours / inject_Z dinnerWindowSize) 1 in
  let lunchConflictRatio :=
    Math_min (lunchOverlapHours / inject_Z lunchWindowSize) 1 in
  (dinnerConflictRatio * 2 + lunchConflictRatio) / 3
  * inject_Z MAX_MEAL_CONFLICT_PTS.

(** The walk over the sorted events that records the gaps of the waking
    window: the state is the array [freeBlocks] and the [cursor]. *)
Definition freeBlockStep (wakingStart wakingEnd : Z)
    (st : list Q * Z) (e : CalendarEvent) : list Q * Z :=
  let '(freeBlocks, cursor) := st in
  let eventStart := Z.max (startTime e) wakingStart in
  let freeBlocks' :=
    if (eventStart >? cursor)%Z
    then freeBlocks ++ [inject_Z (eventStart - cursor) / inject_Z msPerHour]
    else freeBlocks in
  (freeBlocks', Z.max cursor (Z.min (endTime e) wakingEnd)).

Definition freeBlocksOf (sorted : list CalendarEvent)
    (wakingStart wakingEnd : Z) : list Q :=
  let '(freeBlocks, cursor) :=
    fold_left (freeBlockStep wakingStart wakingEnd) sorted
      ([], wakingStart) in
  if (cursor <? wakingEnd)%Z
  then freeBlocks ++ [inject_Z (wakingEnd - cursor) / inject_Z msPerHour]
  else freeBlocks.

Definition largestFreeBlockHoursOf (freeBlocks : list Q) : Q :=
  match freeBlocks with
  | [] => 0
  | _ :: _ => Math_max_spread freeBlocks
  end.

Definition freeBlockPtsOf (largestFreeBlockHours : Q) : Q :=
  inject_Z MAX_FREE_BLOCK_PTS
  * (1 - Math_min (largestFreeBlockHours / inject_Z WAKING_HOURS) 1).

Definition scoreOfRaw (rawScore : Q) : Q :=
  Math_round (Math_min 100 (Math_max 0 rawScore)).

(** The comparator that sorts the events by start time. *)
Definition byStartTime (a b : CalendarEvent) : Q :=
  inject_Z (startTime a) - inject_Z (startTime b).

Section Zone.
Variable tz : Z.

(** Builds local-time midnight boundaries for a given date: the civil
    day is read with the UTC getters, the bounds are local times. *)
Definition localDayBounds (date : Z) : Z * Z :=
  let day := utcDay date in
  (Date_local tz day 0 0 0 0, Date_local tz day 23 59 59 999).

(** Filters events that fall on the given date. *)
Definition eventsOnDate (events : list CalendarEvent) (date : Z)
  : list CalendarEvent :=
  let '(dayStart, dayEnd) := localDayBounds date in
  filter
    (fun e => (startTime e <=? dayEnd)%Z && (endTime e >=? dayStart)%Z)
    events.

Definition TimeBlockSignal_compute (events : list CalendarEvent)
    (date : Z) : SignalResult :=
  let dayEvents := eventsOnDate events date in
  if (List.length dayEvents =? 0)%nat then
    {| score := 0;
       reasoning := "Completely free day";
       rawData :=
         [("totalCommittedHours", 0);
          ("largestFreeBlockHours", inject_Z WAKING_HOURS);
          ("backToBackCount", 0)]%string |}
  else
    (* Sort events by start time *)
    let sorted := Array_sort byStartTime dayEvents in
    (* Total committed hours *)
    let totalCommittedHours := totalCommittedHoursOf sorted in
    let committedPts := committedPtsOf totalCommittedHours in
    (* Back-to-back density *)
    let backToBackCount := countBackToBack sorted in
    let b2bPts := b2bPtsOf sorted backToBackCount in
    (* Meal window conflicts *)
    let dayBase := fst (localDayBounds date) in
    let dinnerStart := setHours tz dayBase DINNER_PREP_START 0 0 0 in
    let dinnerEnd := setHours tz dayBase DINNER_PREP_END 0 0 0 in
    let lunchStart := setHours tz dayBase LUNCH_START 0 0 0 in
    let lunchEnd := setHours tz dayBase LUNCH_END 0 0 0 in
    let dinnerOverlapHours :=
      windowOverlapHours sorted dinnerStart dinnerEnd in
    let lunchOverlapHours :=
      windowOverlapHours sorted lunchStart lunchEnd in
    let mealPts := mealPtsOf dinnerOverlapHours lunchOverlapHours in
    (* Largest free block (inverted) *)
    let wakingStart := setHours tz dayBase 7 0 0 0 in
    let wakingEnd := setHours tz dayBase 23 0 0 0 in
    let freeBlocks := freeBlocksOf sorted wakingStart wakingEnd in
    let largestFreeBlockHours := largestFreeBlockHoursOf freeBlocks in
    let freeBlockPts := freeBlockPtsOf largestFreeBlockHours in
    (* Final score *)
    let rawScore := committedPts + b2bPts + mealPts + freeBlockPts in
    let score := scoreOfRaw rawScore in
    let parts :=
      [(toFixed1 totalCommittedHours ++ "h committed")%string]
      ++ (if (backToBackCount >? 0)%Z
          then [(String_of_int backToBackCount ++ " back-to-back")%string]
          else [])
      ++ (if negb (Qle_bool dinnerOverlapHours 0)
          then ["dinner prep conflict"%string] else [])
      ++ (if negb (Qle_bool lunchOverlapHours 0)
          then ["lunch conflict"%string] else [])
      ++ [("largest free block " ++ toFixed1 largestFreeBlockHours
           ++ "h")%string] in
    {| score := score;
       reasoning := Array_join "; " parts;
       rawData :=
         [("totalCommittedHours", totalCommittedHours);
          ("largestFreeBlockHours", largestFreeBlockHours);
          ("backToBackCount", inject_Z backToBackCount);
          ("dinnerOverlapHours", dinnerOverlapHours);
          ("lunchOverlapHours", lunchOverlapHours);
          ("committedPts", committedPts);
          ("b2bPts", b2bPts);
          ("mealPts", mealPts);
          ("freeBlockPts", freeBlockPts)]%string |}.

(** [class TimeBlockSignal implements ScoreSignal] *)
Definition TimeBlockSignal : ScoreSignal :=
  {| name := "time-block";
     weight := 1;
     compute := TimeBlockSignal_compute |}.

(** [class DayScoreEngine]: its only field is the signal list, fixed
    by the constructor. *)
Record DayScoreEngine : Type := { signals : list ScoreSignal }.

Definition new_DayScoreEngine (signals : option (list ScoreSignal))
  : DayScoreEngine :=
  {| signals :=
       match signals with
       | Some s => s
       | None => [TimeBlockSignal]
       end |}.

(** The loop over the signals of one day: the results so far, the
    weighted score and the weight. *)
Definition signalStep (events : list CalendarEvent) (date : Z)
    (st : list SignalResult * Q * Q) (signal : ScoreSignal)
  : list SignalResult * Q * Q :=
  let '(signalResults, totalWeightedScore, totalWeight) := st in
  let result := compute signal events date in
  (signalResults ++ [result],
   totalWeightedScore + score result * weight signal,
   totalWeight + weight signal).

(** The body of the loop of [scoreWeek] for day [i]. *)
Definition scoreWeekDay (engine : DayScoreEngine)
    (events : list CalendarEvent) (weekStart : Z) (i : Z) : DayScore :=
  let date := setDate_plus tz weekStart i in
  let '(signalResults, totalWeightedScore, totalWeight) :=
    fold_left (signalStep events date) (signals engine) ([], 0, 0) in
  let finalScore :=
    if negb (Qle_bool totalWeight 0)
    then Math_round (totalWeightedScore / totalWeight)
    else 0 in
  {| date := date;
     finalScore := finalScore;
     tier := tierFromScore finalScore;
     signalBreakdown := signalResults |}.

Definition scoreWeek (engine : DayScoreEngine)
    (events : list CalendarEvent) (weekStart : Z) : list DayScore :=
  fold_left
    (fun days i => days ++ [scoreWeekDay engine events weekStart i])
    (map Z.of_nat (seq 0 7)) [].
End Zone.

End ScoringEngine.

(** ** [src/data/ingredientShelfLife.ts] *)

Module IngredientShelfLife.

Inductive ShelfLifeCategory : Type := short | medium | long.

Record ShelfLifeEntry : Type := {
  category : ShelfLifeCategory;
  minDays : Z;
  maxDays : Z
}.

(** The table is an object literal; its own keys are kept in source
    order (names inherited from [Object.prototype] are not entries of
    the model). *)
Definition SHELF_LIFE : list (string * ShelfLifeEntry) :=
  [ ("Fresh Herbs", {| category := short; minDays := 1; maxDays := 3 |});
    ("Berries", {| category := short; minDays := 1; maxDays := 3 |});
    ("Seafood", {| category := short; minDays := 1; maxDays := 2 |});
    ("Fish", {| category := short; minDays := 1; maxDays := 2 |});
    ("Leafy Greens", {| category := short; minDays := 2; maxDays := 4 |});
    ("Fresh Produce", {| category := medium; minDays := 4; maxDays := 6 |});
    ("Produce", {| category := medium; minDays := 4; maxDays := 6 |});
    ("Fruits", {| category := medium; minDays := 3; maxDays := 5 |});
    ("Vegetables", {| category := medium; minDays := 4; maxDays := 6 |});
    ("Dairy", {| category := medium; minDays := 5; maxDays := 7 |});
    ("Eggs", {| category := medium; minDays := 7; maxDays := 14 |});
    ("Poultry", {| category := medium; minDays := 1; maxDays := 3 |});
    ("Meat", {| category := medium; minDays := 2; maxDays := 4 |});
    ("Deli", {| category := medium; minDays := 3; maxDays := 5 |});
    ("Bakery", {| category := medium; minDays := 3; maxDays := 5 |});
    ("Bread", {| category := medium; minDays := 3; maxDays := 5 |});
    ("Pantry", {| category := long; minDays := 30; maxDays := 365 |});
    ("Canned Goods", {| category := long; minDays := 30; maxDays := 365 |});
    ("Grains", {| category := long; minDays := 30; maxDays := 180 |});
    ("Pasta", {| category := long; minDays := 30; maxDays := 365 |});
    ("Rice", {| category := long; minDays := 30; maxDays := 365 |});
    ("Spices", {| category := long; minDays := 90; maxDays := 365 |});
    ("Condiments", {| category := long; minDays := 30; maxDays := 180 |});
    ("Oils", {| category := long; minDays := 30; maxDays := 180 |});
    ("Frozen", {| category := long; minDays := 30; maxDays := 180 |});
    ("Snacks", {| category := long; minDays := 14; maxDays := 90 |});
    ("Beverages", {| category := long; minDays := 14; maxDays := 90 |});
    ("Nuts", {| category := long; minDays := 14; maxDays := 60 |});
    ("Baking", {| category := long; minDays := 30; maxDays := 365 |}) ]%string.

Definition DEFAULT_SHELF_LIFE : ShelfLifeEntry :=
  {| category := medium; minDays := 4; maxDays := 6 |}.

Fixpoint tableGet (key : string) (table : list (string * ShelfLifeEntry))
  : option ShelfLifeEntry :=
  match table with
  | [] => None
  | (k, v) :: rest => if String.eqb k key then Some v else tableGet key rest
  end.

Definition getShelfLife (category : string) : ShelfLifeEntry :=
  match tableGet category SHELF_LIFE with
  | Some entry => entry
  | None => DEFAULT_SHELF_LIFE
  end.


End IngredientShelfLife.

(** ** [src/types/database.ts], the part the optimiser reads *)

Module Database.

(** [Pick<GroceryItem, 'item_name' | 'category'>] *)
Record GroceryItem : Type := {
  item_name : string;
  category : option string
}.

End Database.

(** ** [src/services/pickupOptimizer.ts] *)

Module PickupOptimizer.
Import Js.

Definition CALENDAR_WEIGHT : Q := 6 # 10.
Definition FRESHNESS_WEIGHT : Q := 4 # 10.

Record PerishableMealDate : Type := {
  category : string;
  plannedDate : Z
}.

Record PickupRecommendation : Type := {
  day : Z;
  dayIndex : nat;
  reasoning : string;
  score : Q
}.

(** A call either returns or throws an [Error] with a message. *)
Inductive Completion (A : Type) : Type :=
| Normal (value : A)
| Throw (message : string).
Arguments Normal {A} value.
Arguments Throw {A} message.

(** One turn of the loop over the meals: the value pushed on
    [scores]. *)
Definition mealScore (pickupDate : Z) (meal : PerishableMealDate) : Q :=
  let shelfLife := IngredientShelfLife.getShelfLife (category meal) in
  let maxDays := inject_Z (IngredientShelfLife.maxDays shelfLife) in
  let gapMs := (plannedDate meal - pickupDate)%Z in
  let gapDays := inject_Z gapMs / inject_Z msPerDay in
  if negb (Qle_bool 0 gapDays) then
    (* Shopping after the item is needed *)
    0
  else if Qle_bool gapDays maxDays then
    (* Within shelf life window *)
    let freshness := 100 - (gapDays / maxDays) * 50 in
    Math_max 0 freshness
  else
    (* Gap exceeds shelf life *)
    let overshoot := gapDays - maxDays in
    let penalty := Math_min 100 (overshoot * 20) in
    Math_max 0 (50 - penalty).

Definition computeFreshnessScore (pickupDate : Z)
    (groceryItems : list Database.GroceryItem)
    (perishableMealDates : list PerishableMealDate) : Q :=
  if (List.length perishableMealDates =? 0)%nat then
    (* No perishable constraints *)
    50
  else
    let scores :=
      fold_left (fun scores meal => scores ++ [mealScore pickupDate meal])
        perishableMealDates [] in
    fold_left (fun sum s => sum + s) scores 0
    / inject_Z (Z.of_nat (List.length scores)).

Section Zone.
Variable tz : Z.

Definition buildReasoning (dayScore : Calendar.DayScore)
    (calendarScore freshnessScore : Q)
    (groceryItems : list Database.GroceryItem)
    (perishableMealDates : list PerishableMealDate) : string :=
  let dayName := weekdayLong tz (Calendar.date dayScore) in
  let shortLife :=
    filter
      (fun m =>
         match IngredientShelfLife.category
                 (IngredientShelfLife.getShelfLife (category m)) with
         | IngredientShelfLife.short => true
         | _ => false
         end)
      perishableMealDates in
  let parts :=
    [(dayName ++ " is recommended for grocery pickup.")%string]
    ++ [if Qle_bool 70 calendarScore
        then "Your calendar is very open that day."%string
        else if Qle_bool 40 calendarScore
        then "Your calendar has moderate availability."%string
        else "Your calendar is busier, but freshness needs make this the best trade-off."%string]
    ++ (if (0 <? List.length shortLife)%nat
        then
          let categories := Set_spread [] (map category shortLife) in
          [("Perishable items (" ++ Array_join ", " categories
            ++ ") stay freshest with this timing.")%string]
        else []) in
  Array_join " " parts.

(** The objects that the [map] callback returns. *)
Record Scored : Type := {
  dayScore : Calendar.DayScore;
  index : nat;
  calendarScore : Q;
  freshnessScore : Q;
  combined : Q
}.

Definition scoreCandidate (groceryItems : list Database.GroceryItem)
    (perishableMealDates : list PerishableMealDate)
    (dayScore : Calendar.DayScore) (index : nat) : Scored :=
  (* Calendar component: invert so low-stress = high availability *)
  let calendarScore := 100 - Calendar.finalScore dayScore in
  (* Freshness component *)
  let freshnessScore :=
    computeFreshnessScore (Calendar.date dayScore) groceryItems
      perishableMealDates in
  let combined :=
    CALENDAR_WEIGHT * calendarScore + FRESHNESS_WEIGHT * freshnessScore in
  {| dayScore := dayScore; index := index; calendarScore := calendarScore;
     freshnessScore := freshnessScore; combined := combined |}.

Definition byCombinedDescending (a b : Scored) : Q :=
  combined b - combined a.

(** What the function does with the sorted array. *)
Definition recommendBest (sorted : list Scored)
    (groceryItems : list Database.GroceryItem)
    (perishableMealDates : list PerishableMealDate)
  : Completion PickupRecommendation :=
  match sorted with
  | [] => Throw "TypeError: best is undefined"
  | best :: _ =>
      let reasoning :=
        buildReasoning (dayScore best) (calendarScore best)
          (freshnessScore best) groceryItems perishableMealDates in
      Normal {| day := Calendar.date (dayScore best);
                dayIndex := index best;
                reasoning := reasoning;
                score := combined best |}
  end.

(** [recommendPickupDay] on the contents of its three arrays. *)
Definition recommendPickupDay (weekScores : list Calendar.DayScore)
    (groceryItems : list Database.GroceryItem)
    (perishableMealDates : list PerishableMealDate)
  : Completion PickupRecommendation :=
  if (List.length weekScores =? 0)%nat then
    Throw "weekScores must contain at least one day"
  else
    let scored :=
      Array_map (scoreCandidate groceryItems perishableMealDates)
        weekScores in
    (* Pick the day with the highest combined score *)
    let sorted := Array_sort byCombinedDescending scored in
    recommendBest sorted groceryItems perishableMealDates.

(** *** The same function over a store of arrays

    The arguments are references; [map] allocates the array [scored]
    and [sort] rewrites it in place.  A reference is the position of
    its array in the store. *)

Inductive ArrayObject : Type :=
| DayScoreArray (elems : list Calendar.DayScore)
| GroceryItemArray (elems : list Database.GroceryItem)
| MealDateArray (elems : list PerishableMealDate)
| ScoredArray (elems : list Scored).

Definition Store : Type := list ArrayObject.
Definition Ref : Type := nat.

Definition M (A : Type) : Type := Store -> Completion A * Store.

Definition ret {A : Type} (a : A) : M A := fun st => (Normal a, st).

Definition throw {A : Type} (message : string) : M A :=
  fun st => (Throw message, st).

Definition bind {A B : Type} (m : M A) (k : A -> M B) : M B :=
  fun st =>
    match m st with
    | (Normal a, st') => k a st'
    | (Throw message, st') => (Throw message, st')
    end.

Definition lift {A : Type} (c : Completion A) : M A := fun st => (c, st).

Definition readDayScores (r : Ref) : M (list Calendar.DayScore) :=
  fun st =>
    match nth_error st r with
    | Some (DayScoreArray elems) => (Normal elems, st)
    | _ => (Throw "TypeError: not an array of day scores", st)
    end.

Definition readGroceryItems (r : Ref) : M (list Database.GroceryItem) :=
  fun st =>
    match nth_error st r with
    | Some (GroceryItemArray elems) => (Normal elems, st)
    | _ => (Throw "TypeError: not an array of grocery items", st)
    end.

Definition readMealDates (r : Ref) : M (list PerishableMealDate) :=
  fun st =>
    match nth_error st r with
    | Some (MealDateArray elems) => (Normal elems, st)
    | _ => (Throw "TypeError: not an array of meal dates", st)
    end.

Definition readScored (r : Ref) : M (list Scored) :=
  fun st =>
    match nth_error st r with
    | Some (ScoredArray elems) => (Normal elems, st)
    | _ => (Throw "TypeError: not an array of candidates", st)
    end.

Definition allocArray (a : ArrayObject) : M Ref :=
  fun st => (Normal (List.length st), st ++ [a]).

Fixpoint storeSet (st : Store) (r : Ref) (a : ArrayObject) : Store :=
  match st, r with
  | [], _ => []
  | _ :: rest, O => a :: rest
  | b :: rest, S r' => b :: storeSet rest r' a
  end.

Definition sortScoredInPlace (r : Ref) (cmp : Scored -> Scored -> Q)
  : M unit :=
  fun st =>
    match nth_error st r with
    | Some (ScoredArray elems) =>
        (Normal tt, storeSet st r (ScoredArray (Array_sort cmp elems)))
    | _ => (Throw "TypeError: not an array of candidates", st)
    end.

Definition recommendPickupDay_store
    (weekScores groceryItems perishableMealDates : Ref)
  : M PickupRecommendation :=
  bind (readDayScores weekScores) (fun ws =>
  if (List.length ws =? 0)%nat then
    throw "weekScores must contain at least one day"
  else
    bind (readGroceryItems groceryItems) (fun items =>
    bind (readMealDates perishableMealDates) (fun meals =>
    bind (allocArray (ScoredArray (Array_map (scoreCandidate items meals) ws)))
      (fun scored =>
    bind (sortScoredInPlace scored byCombinedDescending) (fun _ =>
    bind (readScored scored) (fun sorted =>
    lift (recommendBest sorted items meals))))))).
End Zone.

End PickupOptimizer.

(** ** The freshness component in the words of the specification

Section 4.3 of the specification describes the freshness component
through one shelf-life window for the whole grocery list and one
latest perishable date.  The definitions below follow that wording,
for comparison with [PickupOptimizer.computeFreshnessScore].  The
window of an item is read as the [minDays] of its category; the
penalty past the window as 20 points a day; with no short or medium
meal date the component is the neutral 50. *)

Module SpecifiedFreshness.
Import Js.

Definition shortestShelfDays (groceryItems : list Database.GroceryItem) : Z :=
  let windows :=
    flat_map
      (fun item =>
         match Database.category item with
         | Some c =>
             [IngredientShelfLife.minDays (IngredientShelfLife.getShelfLife c)]
         | None => []
         end)
      groceryItems in
  match windows with
  | [] => 30%Z
  | w :: rest => fold_left Z.min rest w
  end.

Definition latestPerishableDate
    (perishableMealDates : list PickupOptimizer.PerishableMealDate)
  : option Z :=
  let perishable :=
    filter
      (fun m =>
         match IngredientShelfLife.category
                 (IngredientShelfLife.getShelfLife
                    (PickupOptimizer.category m)) with
         | IngredientShelfLife.long => false
         | _ => true
         end)
      perishableMealDates in
  match map PickupOptimizer.plannedDate perishable with
  | [] => None
  | d :: rest => Some (fold_left Z.max rest d)
  end.

Definition freshnessScore (candidateDate : Z)
    (groceryItems : list Database.GroceryItem)
    (perishableMealDates : list PickupOptimizer.PerishableMealDate) : Q :=
  if (List.length perishableMealDates =? 0)%nat then 50
  else
    match latestPerishableDate perishableMealDates with
    | None => 50
    | Some latest =>
        let shortest := shortestShelfDays groceryItems in
        let gapDays :=
          Qfloor (inject_Z (latest - candidateDate) / inject_Z msPerDay) in
        if (gapDays <? 0)%Z then 0
        else if (gapDays <=? shortest)%Z then
          100 - (inject_Z gapDays / inject_Z shortest) * 50
        else
          Qmax 0 (50 - inject_Z (gapDays - shortest) * 20)
    end.

End SpecifiedFreshness.

(** ** Fixtures of the test suites

    [scoringEngine.test.ts] and [pickupOptimizer.test.ts] build their
    inputs with [makeEvent], [makeDayScore] and [makeGroceryItem]; the
    week is the one of Monday 2025-02-17, read here in UTC. *)

Module Fixtures.
Import Js Calendar.

(** [new Date('2025-02-17')] *)
Definition baseDate : Z := 1739750400000.

(** [new Date('2025-02-17Thh:mm:00')] moved by [d] days. *)
Definition at_time (d h m : Z) : Z :=
  (baseDate + d * msPerDay + h * msPerHour + m * msPerMinute)%Z.

Definition makeEvent (start finish : Z) : CalendarEvent :=
  {| id := "evt"; title := "Meeting";
     startTime := start; endTime := finish;
     isAllDay := false; source := google;
     metadata := {| location := None; description := None;
                    recurrence := None |} |}.

(** The packed day of [scoringEngine.test.ts]. *)
Definition packedDay : list CalendarEvent :=
  [ makeEvent (at_time 0 8 0) (at_time 0 10 0);
    makeEvent (at_time 0 10 0) (at_time 0 12 0);
    makeEvent (at_time 0 12 30) (at_time 0 14 0);
    makeEvent (at_time 0 14 0) (at_time 0 16 0);
    makeEvent (at_time 0 16 0) (at_time 0 18 0);
    makeEvent (at_time 0 19 0) (at_time 0 20 0) ].

(** Monday 09:00 to 17:00, the event of the seven-day test. *)
Definition mondayEvents : list CalendarEvent :=
  [ makeEvent (at_time 0 9 0) (at_time 0 17 0) ].

(** An event from Monday 22:00 to Tuesday 02:00. *)
Definition lateEvent : CalendarEvent :=
  makeEvent (at_time 0 22 0) (at_time 1 2 0).

Definition makeDayScore (date : Z) (finalScore : Q) (tier : ComplexityTier)
  : DayScore :=
  {| date := date; finalScore := finalScore; tier := tier;
     signalBreakdown := [] |}.

Definition weekScores : list DayScore :=
  [ makeDayScore (at_time 0 0 0) 80 quick;
    makeDayScore (at_time 1 0 0) 50 standard;
    makeDayScore (at_time 2 0 0) 20 exploratory;
    makeDayScore (at_time 3 0 0) 60 standard;
    makeDayScore (at_time 4 0 0) 30 exploratory;
    makeDayScore (at_time 5 0 0) 10 exploratory;
    makeDayScore (at_time 6 0 0) 15 exploratory ].

Definition makeGroceryItem (name category : string) : Database.GroceryItem :=
  {| Database.item_name := name; Database.category := Some category |}.

Definition makeMealDate (category : string) (plannedDate : Z)
  : PickupOptimizer.PerishableMealDate :=
  {| PickupOptimizer.category := category;
     PickupOptimizer.plannedDate := plannedDate |}.

End Fixtures.

(** ** Plain objects used as maps from strings

    The week preview keeps tiers in objects keyed by day name:
    [userAdjustments], [overrides] and [complexityMap].  An object is
    modelled by its own properties in insertion order, which is the
    order of [Object.keys] and [Object.entries] for keys that are not
    array indices. *)

Module JsObject.

Definition Obj (V : Type) : Type := list (string * V).

(** [o[key]], [None] standing for [undefined]. *)
Fixpoint objGet {V : Type} (o : Obj V) (key : string) : option V :=
  match o with
  | [] => None
  | (k, v) :: rest => if String.eqb k key then Some v else objGet rest key
  end.

(** [{ ...o, [key]: value }] and [o[key] = value]: an existing property
    keeps its place, a new one goes last. *)
Fixpoint objSet {V : Type} (o : Obj V) (key : string) (value : V) : Obj V :=
  match o with
  | [] => [(key, value)]
  | (k, v) :: rest =>
      if String.eqb k key then (k, value) :: rest
      else (k, v) :: objSet rest key value
  end.

(** [delete o[key]] *)
Fixpoint objDelete {V : Type} (o : Obj V) (key : string) : Obj V :=
  match o with
  | [] => []
  | (k, v) :: rest =>
      if String.eqb k key then objDelete rest key
      else (k, v) :: objDelete rest key
  end.

(** [key in o] *)
Definition objHas {V : Type} (o : Obj V) (key : string) : bool :=
  match objGet o key with
  | Some _ => true
  | None => false
  end.

Definition Object_keys {V : Type} (o : Obj V) : list string := map fst o.

(** [xs[i]] for a number [i]. *)
Definition arrayAt {A : Type} (xs : list A) (i : Z) : option A :=
  if (i <? 0)%Z then None else nth_error xs (Z.to_nat i).

(** [xs.indexOf(x)], [-1] when [x] is absent. *)
Fixpoint indexOf_from {A : Type} (eqb : A -> A -> bool) (xs : list A) (x : A)
    (i : Z) : Z :=
  match xs with
  | [] => (-1)%Z
  | y :: rest => if eqb y x then i else indexOf_from eqb rest x (i + 1)%Z
  end.

Definition indexOf {A : Type} (eqb : A -> A -> bool) (xs : list A) (x : A)
  : Z :=
  indexOf_from eqb xs x 0%Z.

(** A value used as a property key: [undefined] names the property
    ["undefined"]. *)
Definition propertyKey (key : option string) : string :=
  match key with
  | Some k => k
  | None => "undefined"
  end.

End JsObject.

(** ** [src/services/calendarService.ts]

    The requests to the providers are input: [fetchFrom source] is the
    settled promise of authenticating with one provider and fetching
    its events. *)

Module CalendarService.
Import Js Calendar.

Inductive Settled (A : Type) : Type :=
| fulfilled (value : A)
| rejected (reason : string).
Arguments fulfilled {A} value.
Arguments rejected {A} reason.

(** The comparator of the final sort. *)
Definition byStartTime (a b : CalendarEvent) : Q :=
  inject_Z (startTime a) - inject_Z (startTime b).

(** The loop over the settled results. *)
Definition collectFulfilled (results : list (Settled (list CalendarEvent)))
  : list CalendarEvent :=
  fold_left
    (fun allEvents result =>
       match result with
       | fulfilled value => allEvents ++ value
       | rejected _ => allEvents
       end)
    results [].

Definition fetchAllEvents
    (fetchFrom : CalendarSource -> Settled (list CalendarEvent))
    (user : option string) (sources : list CalendarSource)
  : PickupOptimizer.Completion (list CalendarEvent) :=
  match user with
  | None => PickupOptimizer.Throw "Not authenticated"
  | Some _ =>
      if (List.length sources =? 0)%nat then PickupOptimizer.Normal []
      else
        let results := map fetchFrom sources in
        let allEvents := collectFulfilled results in
        (* Sort by startTime ascending *)
        PickupOptimizer.Normal (Array_sort byStartTime allEvents)
  end.

End CalendarService.

(** ** [src/app/week-preview/actions.ts]

    The session, the connected providers, the fetched events and the
    insert into [week_scores] are input.  A date that the code prints
    with [toISOString] is kept as its time value. *)

Module WeekPreviewActions.
Import Js JsObject Calendar.

Record DayScoreData : Type := {
  ds_date : Z;
  ds_finalScore : Q;
  ds_tier : ComplexityTier;
  ds_reasoning : string
}.

Record PickupSummary : Type := {
  pr_dayIndex : nat;
  pr_reasoning : string
}.

Record WeekPreviewData : Type := {
  weekOf : string;
  dayScores : list DayScoreData;
  connectedProviders : list CalendarSource;
  pickupRecommendation : PickupSummary
}.

Inductive PreviewResult : Type :=
| PreviewError (error : string) (needsCalendar : bool)
| PreviewOk (data : WeekPreviewData).

Definition getWeekPreviewData (tz : Z) (user : option string)
    (connected : list CalendarSource) (weekOf : string) (startDate : Z)
    (fetched : PickupOptimizer.Completion (list CalendarEvent))
  : PickupOptimizer.Completion PreviewResult :=
  match user with
  | None => PickupOptimizer.Normal (PreviewError "Not authenticated" false)
  | Some _ =>
      if (List.length connected =? 0)%nat then
        PickupOptimizer.Normal (PreviewError "No calendar connected" true)
      else
        match fetched with
        | PickupOptimizer.Throw _ =>
            PickupOptimizer.Normal
              (PreviewError
                 "Failed to fetch calendar events. Please try reconnecting your calendar."
                 false)
        | PickupOptimizer.Normal events =>
            let engine := ScoringEngine.new_DayScoreEngine tz None in
            let scores := ScoringEngine.scoreWeek tz engine events startDate in
            match PickupOptimizer.recommendPickupDay tz scores [] [] with
            | PickupOptimizer.Throw message => PickupOptimizer.Throw message
            | PickupOptimizer.Normal pickupResult =>
                PickupOptimizer.Normal
                  (PreviewOk
                     {| weekOf := weekOf;
                        dayScores :=
                          map
                            (fun s =>
                               {| ds_date := date s;
                                  ds_finalScore := finalScore s;
                                  ds_tier := tier s;
                                  ds_reasoning :=
                                    match arrayAt (signalBreakdown s) 0 with
                                    | Some first => reasoning first
                                    | None => ""
                                    end |})
                            scores;
                        connectedProviders := connected;
                        pickupRecommendation :=
                          {| pr_dayIndex :=
                               PickupOptimizer.dayIndex pickupResult;
                             pr_reasoning :=
                               PickupOptimizer.reasoning pickupResult |} |})
            end
        end
  end.

Definition dayNames : list string :=
  ["Monday"; "Tuesday"; "Wednesday"; "Thursday"; "Friday"; "Saturday";
   "Sunday"]%string.

Record DayScoreRow : Type := {
  row_date : Z;
  row_finalScore : Q;
  row_tier : ComplexityTier;
  row_signalBreakdown : list SignalResult
}.

Record WeekScoreInsert : Type := {
  user_id : string;
  week_of : string;
  day_scores : list DayScoreRow;
  user_adjustments : option (Obj ComplexityTier);
  provider_version : string;
  recommended_pickup_day : option string;
  pickup_reasoning : option string
}.

Inductive SaveResult : Type :=
| SaveError (error : string)
| SaveSuccess (weekScoreId : string) (complexityMap : Obj ComplexityTier).

(** The [forEach] that fills [complexityMap], from index [i] on. *)
Fixpoint fillComplexityMap (userAdjustments : Obj ComplexityTier) (i : nat)
    (dayScores : list DayScore) (complexityMap : Obj ComplexityTier)
  : Obj ComplexityTier :=
  match dayScores with
  | [] => complexityMap
  | score :: rest =>
      let dayName := propertyKey (nth_error dayNames i) in
      let chosen :=
        match objGet userAdjustments dayName with
        | Some adjusted => adjusted
        | None => tier score
        end in
      fillComplexityMap userAdjustments (S i) rest
        (objSet complexityMap dayName chosen)
  end.

Definition saveWeekScoresAndGenerate
    (insertWeekScore : WeekScoreInsert -> option string)
    (user : option string) (weekOf : string) (dayScores : list DayScore)
    (userAdjustments : Obj ComplexityTier)
    (pickupDay pickupReasoning : option string) : SaveResult :=
  match user with
  | None => SaveError "Not authenticated"
  | Some userId =>
      let weekScoreData :=
        {| user_id := userId;
           week_of := weekOf;
           day_scores :=
             map
               (fun s =>
                  {| row_date := date s;
                     row_finalScore := finalScore s;
                     row_tier := tier s;
                     row_signalBreakdown := signalBreakdown s |})
               dayScores;
           user_adjustments :=
             if (0 <? List.length (Object_keys userAdjustments))%nat
             then Some userAdjustments else None;
           provider_version := "v1-time-block";
           recommended_pickup_day := pickupDay;
           pickup_reasoning := pickupReasoning |} in
      match insertWeekScore weekScoreData with
      | None => SaveError "Failed to save week scores"
      | Some weekScoreId =>
          SaveSuccess weekScoreId
            (fillComplexityMap userAdjustments 0 dayScores [])
      end
  end.

End WeekPreviewActions.

(** ** [src/app/week-preview/WeekPreviewClient.tsx], the state logic

    The component state [overrides] is passed explicitly: each handler
    maps the previous state to the next. *)

Module WeekPreviewClient.
Import Js JsObject Calendar WeekPreviewActions.

Definition tierCycle : list ComplexityTier := [quick; standard; exploratory].

Definition dayNames : list string :=
  ["Monday"; "Tuesday"; "Wednesday"; "Thursday"; "Friday"; "Saturday";
   "Sunday"]%string.

(** [===] on tiers. *)
Definition tier_eqb (a b : ComplexityTier) : bool :=
  match a, b with
  | quick, quick | standard, standard | exploratory, exploratory => true
  | _, _ => false
  end.

(** [===] on a tier and a tier that may be [undefined]. *)
Definition tier_is (a : ComplexityTier) (b : option ComplexityTier) : bool :=
  match b with
  | Some t => tier_eqb a t
  | None => false
  end.

(** [tierCycle[(currentIndex + 1) % tierCycle.length]]; the index is
    always inside the array, the default value is never read. *)
Definition nextTierOf (currentTier : ComplexityTier) : ComplexityTier :=
  let currentIndex := indexOf tier_eqb tierCycle currentTier in
  match arrayAt tierCycle
          (Z.rem (currentIndex + 1) (Z.of_nat (List.length tierCycle))) with
  | Some t => t
  | None => standard
  end.

(** The state update of [handleDayClick]. *)
Definition handleDayClick (initialDayScores : list DayScoreData)
    (dayName : string) (currentTier : ComplexityTier)
    (prev : Obj ComplexityTier) : Obj ComplexityTier :=
  let nextTier := nextTierOf currentTier in
  let originalTier :=
    option_map ds_tier
      (arrayAt initialDayScores (indexOf String.eqb dayNames dayName)) in
  (* If cycling back to original, remove the override *)
  if tier_is nextTier originalTier then objDelete prev dayName
  else objSet prev dayName nextTier.

Definition resetOverrides (prev : Obj ComplexityTier) : Obj ComplexityTier :=
  [].

Definition getEffectiveTier (initialDayScores : list DayScoreData)
    (overrides : Obj ComplexityTier) (dayIndex : nat) : ComplexityTier :=
  let dayName := propertyKey (nth_error dayNames dayIndex) in
  match objGet overrides dayName with
  | Some t => t
  | None =>
      match nth_error initialDayScores dayIndex with
      | Some ds => ds_tier ds
      | None => standard
      end
  end.

(** What [handleGenerate] sends to [saveWeekScoresAndGenerate]. *)
Definition generateDayScores (initialDayScores : list DayScoreData)
  : list DayScore :=
  map
    (fun ds =>
       {| date := ds_date ds;
          finalScore := ds_finalScore ds;
          tier := ds_tier ds;
          signalBreakdown :=
            [{| score := ds_finalScore ds;
                reasoning := ds_reasoning ds;
                rawData := [] |}] |})
    initialDayScores.

(** [dayNames[initialData.pickupRecommendation.dayIndex]], before the
    [?? null] of [handleGenerate] and the [?? 'N/A'] of the header. *)
Definition pickupDayName (pickup : PickupSummary) : option string :=
  nth_error dayNames (pr_dayIndex pickup).

(** The call that [handleGenerate] makes and its result.  The [loading]
    and [error] states and the navigation that follows a success are
    not part of the model; [new Date(ds.date)] reads back the ISO string
    that [getWeekPreviewData] wrote, here the same instant. *)
Definition handleGenerate
    (insertWeekScore : WeekScoreInsert -> option string)
    (user : option string) (initialData : WeekPreviewData)
    (overrides : Obj ComplexityTier) : SaveResult :=
  saveWeekScoresAndGenerate insertWeekScore user (weekOf initialData)
    (generateDayScores (dayScores initialData)) overrides
    (pickupDayName (pickupRecommendation initialData))
    (Some (pr_reasoning (pickupRecommendation initialData))).

End WeekPreviewClient.

(** ** Further fixtures *)

Module MoreFixtures.
Import Js Calendar.

(** Tuesday 09:00 to 10:00. *)
Definition tuesdayEvent : CalendarEvent :=
  Fixtures.makeEvent (Fixtures.at_time 1 9 0) (Fixtures.at_time 1 10 0).

(** Two Monday meetings that do not start together. *)
Definition morning : CalendarEvent :=
  Fixtures.makeEvent (Fixtures.at_time 0 9 0) (Fixtures.at_time 0 10 0).
Definition afternoon : CalendarEvent :=
  Fixtures.makeEvent (Fixtures.at_time 0 14 0) (Fixtures.at_time 0 15 0).

(** A signal that answers 40 for every day, with weight 2. *)
Definition constantSignal : ScoreSignal :=
  {| name := "constant";
     weight := 2;
     compute := fun _ _ =>
       {| score := 40; reasoning := "constant"; rawData := [] |} |}.

(** Google answers with the packed day, the request to Apple fails. *)
Definition fetchFrom (source : CalendarSource)
  : CalendarService.Settled (list CalendarEvent) :=
  match source with
  | google => CalendarService.fulfilled Fixtures.packedDay
  | apple =>
      CalendarService.rejected "Apple Calendar credentials are incomplete."
  end.

(** A preview of two days. *)
Definition previewDays : list WeekPreviewActions.DayScoreData :=
  [ {| WeekPreviewActions.ds_date := Fixtures.at_time 0 0 0;
       WeekPreviewActions.ds_finalScore := 80;
       WeekPreviewActions.ds_tier := quick;
       WeekPreviewActions.ds_reasoning := "8.0h committed" |};
    {| WeekPreviewActions.ds_date := Fixtures.at_time 1 0 0;
       WeekPreviewActions.ds_finalScore := 0;
       WeekPreviewActions.ds_tier := exploratory;
       WeekPreviewActions.ds_reasoning := "Completely free day" |} ].

Definition previewData : WeekPreviewActions.WeekPreviewData :=
  {| WeekPreviewActions.weekOf := "2025-02-17";
     WeekPreviewActions.dayScores := previewDays;
     WeekPreviewActions.connectedProviders := [google];
     WeekPreviewActions.pickupRecommendation :=
       {| WeekPreviewActions.pr_dayIndex := 1;
          WeekPreviewActions.pr_reasoning :=
            "Tuesday is recommended for grocery pickup." |} |}.

(** An insert that succeeds. *)
Definition insertOk (row : WeekPreviewActions.WeekScoreInsert)
  : option string :=
  Some "week-score-1"%string.

End MoreFixtures.

(** * Properties *)

(** ** Facts about the built-ins *)

Module JsFacts.
Import Js.

Lemma sort_insert_perm {A : Type} (cmp : A -> A -> Q) (x : A) (l : list A) :
  Permutation (x :: l) (sort_insert cmp x l).
Proof.
  induction l as [|y ys IH]; simpl.
  - apply Permutation_refl.
  - destruct (Qle_bool (cmp x y) 0).
    + apply Permutation_refl.
    + apply perm_trans with (y :: x :: ys).
      * apply perm_swap.
      * apply perm_skip, IH.
Qed.

Lemma Array_sort_perm {A : Type} (cmp : A -> A -> Q) (l : list A) :
  Permutation l (Array_sort cmp l).
Proof.
  induction l as [|x xs IH]; simpl.
  - apply perm_nil.
  - eapply perm_trans; [apply perm_skip, IH | apply sort_insert_perm].
Qed.

Lemma Array_sort_length {A : Type} (cmp : A -> A -> Q) (l : list A) :
  List.length (Array_sort cmp l) = List.length l.
Proof. symmetry. apply Permutation_length, Array_sort_perm. Qed.

(** The first element of an array sorted by decreasing [key] is the
    earliest element of the original array that carries the largest
    key. *)
Section DescendingHead.
Context {A : Type} (key : A -> Q).

Lemma sort_desc_head (l : list A) :
  let desc (a b : A) : Q := key b - key a in
  l <> [] ->
  exists (k : nat) (b : A) (rest : list A),
    Array_sort desc l = b :: rest /\
    nth_error l k = Some b /\
    (forall y, In y l -> key y <= key b) /\
    (forall j y, (j < k)%nat -> nth_error l j = Some y -> key y < key b).
Proof.
  intros desc. induction l as [|x xs IH]; [congruence|]. intros _.
  destruct xs as [|x' xs'].
  - exists 0%nat, x, []. simpl. repeat split.
    + intros y [<-|[]]. apply Qle_refl.
    + intros j y Hj. lia.
  - destruct IH as (k & b & rest & Hs & Hk & Hmax & Hbefore); [congruence|].
    change (Array_sort desc (x :: x' :: xs'))
      with (sort_insert desc x (Array_sort desc (x' :: xs'))).
    rewrite Hs. simpl sort_insert.
    destruct (Qle_bool (desc x b) 0) eqn:Hc.
    + apply Qle_bool_iff in Hc. unfold desc in Hc.
      exists 0%nat, x, (b :: rest). repeat split.
      * intros y [<-|Hy]; [apply Qle_refl|].
        specialize (Hmax y Hy). lra.
      * intros j y Hj. lia.
    + assert (Hlt : key x < key b).
      { destruct (Qlt_le_dec (key x) (key b)) as [H|H]; [exact H|].
        assert (Hb : Qle_bool (desc x b) 0 = true)
          by (apply Qle_bool_iff; unfold desc; lra).
        congruence. }
      exists (S k), b, (sort_insert desc x rest). repeat split.
      * exact Hk.
      * intros y [<-|Hy]; [lra | apply Hmax, Hy].
      * intros [|j] y Hj Hy; simpl in Hy.
        -- injection Hy as <-. exact Hlt.
        -- apply (Hbefore j); [lia | exact Hy].
Qed.
End DescendingHead.

Lemma map_from_nth {A B : Type} (f : A -> nat -> B) (l : list A) :
  forall i k b,
    nth_error (map_from f i l) k = Some b ->
    exists a, nth_error l k = Some a /\ b = f a (i + k)%nat.
Proof.
  induction l as [|x xs IH]; intros i [|k] b H; simpl in H; try discriminate.
  - injection H as <-. exists x. split; [reflexivity|].
    f_equal. lia.
  - destruct (IH _ _ _ H) as (a & Ha & ->).
    exists a. split; [exact Ha|]. f_equal. lia.
Qed.

Lemma map_from_nth_of {A B : Type} (f : A -> nat -> B) (l : list A) :
  forall i k a,
    nth_error l k = Some a ->
    nth_error (map_from f i l) k = Some (f a (i + k)%nat).
Proof.
  induction l as [|x xs IH]; intros i [|k] a H; simpl in *; try discriminate.
  - injection H as <-. do 2 f_equal. lia.
  - rewrite (IH (S i) k a H). do 2 f_equal. lia.
Qed.

Lemma map_from_length {A B : Type} (f : A -> nat -> B) (l : list A) :
  forall i, List.length (map_from f i l) = List.length l.
Proof. induction l; intros i; simpl; [|rewrite IHl]; reflexivity. Qed.

Lemma map_from_In {A B : Type} (f : A -> nat -> B) (l : list A) :
  forall i a, In a l -> exists k, In (f a k) (map_from f i l).
Proof.
  induction l as [|x xs IH]; intros i a []; simpl.
  - subst. exists i. now left.
  - destruct (IH (S i) a H) as [k Hk]. exists k. now right.
Qed.

Lemma Math_round_int (n : Z) : Math_round (inject_Z n) = inject_Z n.
Proof.
  unfold Math_round. f_equal.
  assert (H1 : (n <= Qfloor (inject_Z n + (1 # 2)))%Z).
  { rewrite <- (Qfloor_Z n) at 1. apply Qfloor_resp_le. lra. }
  assert (H2 : (Qfloor (inject_Z n + (1 # 2)) < n + 1)%Z).
  { rewrite Zlt_Qlt.
    apply Qle_lt_trans with (inject_Z n + (1 # 2)); [apply Qfloor_le|].
    rewrite inject_Z_plus. change (inject_Z 1) with 1. lra. }
  lia.
Qed.

Lemma Math_round_comp (x y : Q) : x == y -> Math_round x = Math_round y.
Proof.
  intros H. unfold Math_round. f_equal.
  apply Qfloor_comp. rewrite H. reflexivity.
Qed.

Lemma Math_round_range (x : Q) (lo hi : Z) :
  inject_Z lo <= x -> x <= inject_Z hi ->
  exists n : Z, Math_round x = inject_Z n /\ (lo <= n <= hi)%Z.
Proof.
  intros Hlo Hhi. exists (Qfloor (x + (1 # 2))). split; [reflexivity|].
  split.
  - rewrite <- (Qfloor_Z lo). apply Qfloor_resp_le. lra.
  - assert (H : (Qfloor (x + (1 # 2)) < hi + 1)%Z); [|lia].
    rewrite Zlt_Qlt.
    apply Qle_lt_trans with (x + (1 # 2)); [apply Qfloor_le|].
    rewrite inject_Z_plus. change (inject_Z 1) with 1. lra.
Qed.

Lemma setHours_of_local_midnight (tz day h : Z) :
  setHours tz (Date_local tz day 0 0 0 0) h 0 0 0 = Date_local tz day h 0 0 0.
Proof.
  unfold setHours, Date_local, localDay, msPerDay.
  replace (day * 86400000 + 0 * msPerHour + 0 * msPerMinute
           + 0 * msPerSecond + 0 - tz + tz)%Z
    with (day * 86400000)%Z by lia.
  rewrite Z.div_mul by lia. reflexivity.
Qed.

Lemma setDate_plus_days (tz t i : Z) :
  setDate_plus tz t i = (t + i * msPerDay)%Z.
Proof.
  unfold setDate_plus, localDay, timeWithinLocalDay, msPerDay.
  pose proof (Z.div_mod (t + tz) 86400000 ltac:(lia)). lia.
Qed.

End JsFacts.

(** ** The scoring engine *)

Module ScoringEngineFacts.
Import Js Calendar ScoringEngine JsFacts.

Section Zone.
Variable tz : Z.

Lemma scoreWeek_days (engine : DayScoreEngine)
    (events : list CalendarEvent) (weekStart : Z) :
  scoreWeek tz engine events weekStart
  = map (fun i => scoreWeekDay tz engine events weekStart (Z.of_nat i))
      (seq 0 7).
Proof. reflexivity. Qed.

Lemma scoreWeekDay_date (engine : DayScoreEngine)
    (events : list CalendarEvent) (weekStart i : Z) :
  date (scoreWeekDay tz engine events weekStart i)
  = (weekStart + i * msPerDay)%Z.
Proof.
  unfold scoreWeekDay.
  destruct (fold_left _ _ _) as [[results tws] tw]. simpl.
  apply setDate_plus_days.
Qed.


(** C6: [scoreWeek] returns exactly seven entries; entry [i] carries
    the date [weekStart + i] days, so the dates ascend from
    [weekStart]. *)
Theorem scoreWeek_seven_days_in_order (engine : DayScoreEngine)
    (events : list CalendarEvent) (weekStart : Z) :
  List.length (scoreWeek tz engine events weekStart) = 7%nat /\
  map date (scoreWeek tz engine events weekStart)
  = map (fun i => (weekStart + Z.of_nat i * msPerDay)%Z) (seq 0 7) /\
  StronglySorted Z.lt (map date (scoreWeek tz engine events weekStart)).
Proof.
  assert (Hdates :
    map date (scoreWeek tz engine events weekStart)
    = map (fun i => (weekStart + Z.of_nat i * msPerDay)%Z) (seq 0 7)).
  { rewrite scoreWeek_days, map_map. apply map_ext.
    intros i. apply scoreWeekDay_date. }
  split; [|split].
  - rewrite scoreWeek_days, length_map, length_seq. reflexivity.
  - exact Hdates.
  - rewrite Hdates. unfold msPerDay. simpl.
    repeat (constructor; [|repeat (constructor; try lia)]).
    constructor.
Qed.

Lemma eventsOnDate_In (events : list CalendarEvent) (date : Z)
    (e : CalendarEvent) :
  In e (eventsOnDate tz events date) <->
  In e events /\
  (startTime e <= snd (localDayBounds tz date))%Z /\
  (endTime e >= fst (localDayBounds tz date))%Z.
Proof.
  unfold eventsOnDate.
  destruct (localDayBounds tz date) as [dayStart dayEnd]. simpl.
  rewrite filter_In, andb_true_iff, Z.leb_le, Z.geb_le. intuition lia.
Qed.

End Zone.


(** *** The four sub-scores *)

Lemma countBackToBack_bounds (sorted : list CalendarEvent) :
  (0 <= countBackToBack sorted
   <= Z.max (Z.of_nat (List.length sorted) - 1) 0)%Z.
Proof.
  induction sorted as [|e rest IH]; [simpl; lia|].
  destruct rest as [|next rest']; [simpl; lia|].
  change (countBackToBack (e :: next :: rest'))
    with ((if Qle_bool
                (inject_Z (startTime next - endTime e) / inject_Z msPerMinute)
                (inject_Z BACK_TO_BACK_GAP_MINUTES)
           then 1 else 0) + countBackToBack (next :: rest'))%Z.
  simpl List.length in *.
  destruct (Qle_bool _ _); lia.
Qed.

Lemma committedPts_cap (totalCommittedHours : Q) :
  committedPtsOf totalCommittedHours <= 40.
Proof. unfold committedPtsOf, Math_min. apply Q.le_min_l. Qed.

Lemma b2bPts_cap (sorted : list CalendarEvent) :
  b2bPtsOf sorted (countBackToBack sorted) <= 25.
Proof.
  unfold b2bPtsOf.
  pose proof (countBackToBack_bounds sorted) as [H0 H1].
  set (count := countBackToBack sorted) in *.
  set (maxPossibleB2B := Z.max (Z.of_nat (List.length sorted) - 1) 1).
  assert (Hpos : 0 < inject_Z maxPossibleB2B).
  { change 0 with (inject_Z 0). rewrite <- Zlt_Qlt.
    unfold maxPossibleB2B. lia. }
  assert (Hle : inject_Z count <= inject_Z maxPossibleB2B).
  { rewrite <- Zle_Qle. unfold maxPossibleB2B. lia. }
  assert (Hratio : inject_Z count / inject_Z maxPossibleB2B <= 1).
  { apply Qle_shift_div_r; [exact Hpos | lra]. }
  change (inject_Z MAX_BACK_TO_BACK_PTS) with 25. lra.
Qed.

Lemma mealPts_cap (dinnerOverlapHours lunchOverlapHours : Q) :
  mealPtsOf dinnerOverlapHours lunchOverlapHours <= 20.
Proof.
  unfold mealPtsOf, Math_min.
  pose proof (Q.le_min_r (dinnerOverlapHours
                          / inject_Z (DINNER_PREP_END - DINNER_PREP_START)) 1).
  pose proof (Q.le_min_r (lunchOverlapHours
                          / inject_Z (LUNCH_END - LUNCH_START)) 1).
  set (d := Qmin (dinnerOverlapHours / _) 1) in *.
  set (l := Qmin (lunchOverlapHours / _) 1) in *. clearbody d l.
  change (inject_Z MAX_MEAL_CONFLICT_PTS) with 20.
  unfold Qdiv. change (/ 3) with (1 # 3). lra.
Qed.

Lemma hours_positive (ms : Z) :
  (0 < ms)%Z -> 0 <= inject_Z ms / inject_Z msPerHour.
Proof.
  intros H. apply Qle_shift_div_l; [reflexivity|].
  rewrite Qmult_0_l. change 0 with (inject_Z 0). rewrite <- Zle_Qle. lia.
Qed.

Lemma freeBlockStep_nonneg (wakingStart wakingEnd : Z)
    (sorted : list CalendarEvent) :
  forall st,
    Forall (fun b => 0 <= b) (fst st) ->
    Forall (fun b => 0 <= b)
      (fst (fold_left (freeBlockStep wakingStart wakingEnd) sorted st)).
Proof.
  induction sorted as [|e rest IH]; intros [freeBlocks cursor] H; simpl.
  - exact H.
  - apply IH. simpl in *.
    destruct (Z.max (startTime e) wakingStart >? cursor)%Z eqn:Hgt.
    + apply Forall_app. split; [exact H|].
      constructor; [|constructor].
      apply hours_positive. apply Z.gtb_lt in Hgt. lia.
    + exact H.
Qed.

Lemma freeBlocksOf_nonneg (sorted : list CalendarEvent)
    (wakingStart wakingEnd : Z) :
  Forall (fun b => 0 <= b) (freeBlocksOf sorted wakingStart wakingEnd).
Proof.
  unfold freeBlocksOf.
  pose proof (freeBlockStep_nonneg wakingStart wakingEnd sorted
                ([], wakingStart) (Forall_nil _)) as H.
  destruct (fold_left _ _ _) as [freeBlocks cursor]. simpl in H.
  destruct (cursor <? wakingEnd)%Z eqn:Hlt; [|exact H].
  apply Forall_app. split; [exact H|].
  constructor; [|constructor].
  apply hours_positive. apply Z.ltb_lt in Hlt. lia.
Qed.

Lemma fold_Math_max_ge (xs : list Q) :
  forall x, x <= fold_left Math_max xs x.
Proof.
  induction xs as [|y ys IH]; intros x; simpl; [apply Qle_refl|].
  eapply Qle_trans; [|apply IH]. unfold Math_max. apply Q.le_max_l.
Qed.

Lemma largestFreeBlockHours_nonneg (freeBlocks : list Q) :
  Forall (fun b => 0 <= b) freeBlocks ->
  0 <= largestFreeBlockHoursOf freeBlocks.
Proof.
  intros H. destruct freeBlocks as [|x rest]; simpl; [apply Qle_refl|].
  inversion H; subst.
  eapply Qle_trans; [eassumption | apply fold_Math_max_ge].
Qed.

Lemma freeBlockPts_cap (largestFreeBlockHours : Q) :
  0 <= largestFreeBlockHours ->
  freeBlockPtsOf largestFreeBlockHours <= 15.
Proof.
  intros H. unfold freeBlockPtsOf, Math_min.
  assert (Hmin : 0 <= Qmin (largestFreeBlockHours / inject_Z WAKING_HOURS) 1).
  { apply Q.min_glb; [|lra].
    apply Qle_shift_div_l; [reflexivity | lra]. }
  change (inject_Z MAX_FREE_BLOCK_PTS) with 15. lra.
Qed.


Section ZoneScores.
Variable tz : Z.

(** C9: on a day with events each of the four sub-scores stays under
    its cap (40, 25, 20 and 15 points), the back-to-back count never
    exceeds [max (eventCount - 1) 1], the raw sum never exceeds 100
    and [Math.min(100, ...)] leaves the clamped value unchanged. *)
Theorem compute_subscores_capped (events : list CalendarEvent)
    (date : Z) :
  eventsOnDate tz events date <> [] ->
  let r := TimeBlockSignal_compute tz events date in
  let eventCount := Z.of_nat (List.length (eventsOnDate tz events date)) in
  exists committedPts b2bPts mealPts freeBlockPts backToBackCount : Q,
    rawGet "committedPts" (rawData r) = Some committedPts /\
    rawGet "b2bPts" (rawData r) = Some b2bPts /\
    rawGet "mealPts" (rawData r) = Some mealPts /\
    rawGet "freeBlockPts" (rawData r) = Some freeBlockPts /\
    rawGet "backToBackCount" (rawData r) = Some backToBackCount /\
    backToBackCount <= inject_Z (Z.max (eventCount - 1) 1) /\
    committedPts <= 40 /\
    b2bPts <= 25 /\
    mealPts <= 20 /\
    freeBlockPts <= 15 /\
    committedPts + b2bPts + mealPts + freeBlockPts <= 100 /\
    Math_min 100
      (Math_max 0 (committedPts + b2bPts + mealPts + freeBlockPts))
    == Math_max 0 (committedPts + b2bPts + mealPts + freeBlockPts) /\
    score r
    = Math_round
        (Math_max 0 (committedPts + b2bPts + mealPts + freeBlockPts)).
Proof.
  intros Hbusy r eventCount. subst r eventCount.
  unfold TimeBlockSignal_compute.
  destruct (eventsOnDate tz events date) as [|e rest] eqn:Hday;
    [congruence|].
  change (List.length (e :: rest) =? 0)%nat with false.
  cbv beta iota zeta.
  set (sorted := Array_sort byStartTime (e :: rest)).
  set (dayBase := fst (localDayBounds tz date)).
  set (dinner := windowOverlapHours sorted _ _).
  set (lunch := windowOverlapHours sorted _ _).
  set (freeBlocks := freeBlocksOf sorted _ _).
  assert (Hlen : List.length sorted = List.length (e :: rest))
    by apply Array_sort_length.
  pose proof (committedPts_cap (totalCommittedHoursOf sorted)) as Hc.
  pose proof (b2bPts_cap sorted) as Hb.
  pose proof (mealPts_cap dinner lunch) as Hm.
  pose proof (freeBlockPts_cap (largestFreeBlockHoursOf freeBlocks)
                (largestFreeBlockHours_nonneg _
                   (freeBlocksOf_nonneg _ _ _))) as Hf.
  pose proof (countBackToBack_bounds sorted) as Hcount.
  set (c := committedPtsOf _) in *. set (b := b2bPtsOf _ _) in *.
  set (m := mealPtsOf _ _) in *. set (f := freeBlockPtsOf _) in *.
  assert (Hsum : c + b + m + f <= 100) by lra.
  assert (Hmax : Qmax 0 (c + b + m + f) <= 100)
    by (apply Q.max_lub; [discriminate | exact Hsum]).
  exists c, b, m, f, (inject_Z (countBackToBack sorted)).
  repeat split; try reflexivity; try assumption.
  - rewrite <- Zle_Qle. rewrite Hlen in Hcount. lia.
  - unfold Math_min, Math_max. apply Q.min_r. exact Hmax.
  - simpl score. unfold scoreOfRaw. apply Math_round_comp.
    unfold Math_min, Math_max. apply Q.min_r. exact Hmax.
Qed.


(** The loop over the signals keeps the weighted score between 0 and
    100 times the weight, when every signal honours the range of
    [SignalResult.score] and carries a non-negative weight. *)
Lemma signalStep_invariant (events : list CalendarEvent) (date : Z)
    (sigs : list ScoreSignal) :
  (forall s, In s sigs ->
             0 <= weight s /\
             0 <= score (compute s events date) <= 100) ->
  forall st,
    0 <= snd st /\ 0 <= snd (fst st) <= 100 * snd st ->
    let st' := fold_left (signalStep events date) sigs st in
    0 <= snd st' /\ 0 <= snd (fst st') <= 100 * snd st'.
Proof.
  induction sigs as [|s rest IH]; intros Hsigs [[results tws] tw] Hst;
    simpl in *; [exact Hst|].
  apply IH; [intros s' Hs'; apply Hsigs; now right|].
  destruct (Hsigs s (or_introl eq_refl)) as (Hw & Hs0 & Hs100).
  simpl.
  pose proof (Qmult_le_0_compat _ _ Hs0 Hw).
  assert (score (compute s events date) * weight s <= 100 * weight s)
    by (apply Qmult_le_compat_r; assumption).
  lra.
Qed.

Lemma scoreWeekDay_range (engine : DayScoreEngine)
    (events : list CalendarEvent) (weekStart i : Z) :
  (forall s ev d, In s (signals engine) ->
                  0 <= weight s /\ 0 <= score (compute s ev d) <= 100) ->
  exists n : Z,
    finalScore (scoreWeekDay tz engine events weekStart i) = inject_Z n /\
    (0 <= n <= 100)%Z.
Proof.
  intros Hsigs. unfold scoreWeekDay.
  pose proof (signalStep_invariant events (setDate_plus tz weekStart i)
                (signals engine)
                (fun s Hs => Hsigs s events _ Hs) ([], 0, 0)) as Hinv.
  simpl in Hinv. specialize (Hinv ltac:(lra)).
  destruct (fold_left _ _ _) as [[results tws] tw]. simpl in *.
  destruct (Qle_bool tw 0) eqn:Htw; simpl.
  - exists 0%Z. split; [reflexivity | lia].
  - assert (Hpos : 0 < tw).
    { destruct (Qlt_le_dec 0 tw) as [H|H]; [exact H|].
      apply Qle_bool_iff in H. congruence. }
    apply Math_round_range.
    + change (inject_Z 0) with 0.
      apply Qle_shift_div_l; [exact Hpos | lra].
    + change (inject_Z 100) with 100.
      apply Qle_shift_div_r; [exact Hpos | lra].
Qed.


End ZoneScores.

(** The packed day of the test suite scores 68 from sub-scores under
    their caps. *)
Lemma compute_subscores_capped_witness :
  eventsOnDate 0 Fixtures.packedDay Fixtures.baseDate <> [] /\
  exists committedPts b2bPts mealPts freeBlockPts : Q,
    rawGet "committedPts"
      (rawData (TimeBlockSignal_compute 0 Fixtures.packedDay
                  Fixtures.baseDate)) = Some committedPts /\
    rawGet "b2bPts"
      (rawData (TimeBlockSignal_compute 0 Fixtures.packedDay
                  Fixtures.baseDate)) = Some b2bPts /\
    rawGet "mealPts"
      (rawData (TimeBlockSignal_compute 0 Fixtures.packedDay
                  Fixtures.baseDate)) = Some mealPts /\
    rawGet "freeBlockPts"
      (rawData (TimeBlockSignal_compute 0 Fixtures.packedDay
                  Fixtures.baseDate)) = Some freeBlockPts /\
    committedPts + b2bPts + mealPts + freeBlockPts <= 100.
Proof.
  split; [vm_compute; discriminate|].
  destruct (compute_subscores_capped 0 Fixtures.packedDay Fixtures.baseDate)
    as (c & b & m & f & n & Hc & Hb & Hm & Hf & _ & _ & _ & _ & _ & _
        & Hsum & _).
  - vm_compute. discriminate.
  - exists c, b, m, f. repeat split; assumption.
Defined.


(** *** Events that cross midnight *)

Lemma totalCommittedHours_from (l : list CalendarEvent) :
  forall a,
    fold_left (fun sum e => sum + durationHours e) l a
    == a + totalCommittedHoursOf l.
Proof.
  unfold totalCommittedHoursOf.
  induction l as [|x xs IH]; intros a; simpl; [lra|].
  pose proof (IH (a + durationHours x)).
  pose proof (IH (0 + durationHours x)). lra.
Qed.

Lemma totalCommittedHours_cons (e : CalendarEvent)
    (l : list CalendarEvent) :
  totalCommittedHoursOf (e :: l) == durationHours e + totalCommittedHoursOf l.
Proof.
  unfold totalCommittedHoursOf at 1. simpl.
  rewrite totalCommittedHours_from. lra.
Qed.

Lemma totalCommittedHours_perm (l l' : list CalendarEvent) :
  Permutation l l' -> totalCommittedHoursOf l == totalCommittedHoursOf l'.
Proof.
  induction 1 as [|x l l' _ IH|x y l|l l' l'' _ IH1 _ IH2].
  - reflexivity.
  - rewrite !totalCommittedHours_cons, IH. reflexivity.
  - rewrite !totalCommittedHours_cons. lra.
  - rewrite IH1. exact IH2.
Qed.

Section ZoneMidnight.
Variable tz : Z.

Lemma localDayBounds_next_day (date : Z) :
  localDayBounds tz (date + msPerDay)
  = ((fst (localDayBounds tz date) + msPerDay)%Z,
     (snd (localDayBounds tz date) + msPerDay)%Z).
Proof.
  unfold localDayBounds, utcDay, Date_local. simpl fst. simpl snd.
  replace ((date + msPerDay) / msPerDay)%Z with (date / msPerDay + 1)%Z.
  - f_equal; unfold msPerDay, msPerHour, msPerMinute, msPerSecond; lia.
  - unfold msPerDay.
    replace (date + 86400000)%Z with (date + 1 * 86400000)%Z by lia.
    rewrite Z.div_add by lia. reflexivity.
Qed.

Lemma compute_totalCommittedHours (events : list CalendarEvent)
    (date : Z) :
  eventsOnDate tz events date <> [] ->
  rawGet "totalCommittedHours"
    (rawData (TimeBlockSignal_compute tz events date))
  = Some (totalCommittedHoursOf
            (Array_sort byStartTime (eventsOnDate tz events date))).
Proof.
  intros Hbusy. unfold TimeBlockSignal_compute.
  destruct (eventsOnDate tz events date) as [|e rest]; [congruence|].
  reflexivity.
Qed.

(** C5, as the code has it: an event that crosses the local midnight
    after [date] is scored on both days, and the committed hours of
    each of the two days contain the whole duration of the event. *)
Theorem midnight_event_counted_in_full (events : list CalendarEvent)
    (e : CalendarEvent) (date : Z) :
  In e events ->
  (startTime e < fst (localDayBounds tz date) + msPerDay < endTime e)%Z ->
  forall day, day = date \/ day = (date + msPerDay)%Z ->
    In e (eventsOnDate tz events day) /\
    exists (q : Q) (others : list CalendarEvent),
      rawGet "totalCommittedHours"
        (rawData (TimeBlockSignal_compute tz events day)) = Some q /\
      Permutation (eventsOnDate tz events day) (e :: others) /\
      q == durationHours e + totalCommittedHoursOf others.
Proof.
  intros Hin Hcross day Hday.
  assert (Hon : In e (eventsOnDate tz events day)).
  { apply eventsOnDate_In. split; [exact Hin|].
    destruct Hday as [->| ->].
    - unfold localDayBounds, Date_local, msPerDay, msPerHour, msPerMinute,
        msPerSecond in *. simpl fst in *. simpl snd. lia.
    - rewrite localDayBounds_next_day. simpl fst. simpl snd.
      unfold localDayBounds, Date_local, msPerDay, msPerHour, msPerMinute,
        msPerSecond in *. simpl fst in *. simpl snd. lia. }
  split; [exact Hon|].
  destruct (in_split _ _ Hon) as (l1 & l2 & Hsplit).
  exists (totalCommittedHoursOf
            (Array_sort byStartTime (eventsOnDate tz events day))),
    (l1 ++ l2).
  assert (Hperm : Permutation (eventsOnDate tz events day) (e :: l1 ++ l2)).
  { rewrite Hsplit. symmetry. apply Permutation_middle. }
  split; [|split].
  - apply compute_totalCommittedHours. rewrite Hsplit.
    destruct l1; discriminate.
  - exact Hperm.
  - rewrite <- totalCommittedHours_cons.
    apply totalCommittedHours_perm.
    eapply perm_trans; [symmetry; apply Array_sort_perm | exact Hperm].
Qed.
End ZoneMidnight.

(** The event from Monday 22:00 to Tuesday 02:00 lasts four hours and
    shares two of them with Monday; Monday's committed hours are the
    four. *)
Lemma committed_hours_exceed_day_overlap :
  let e := Fixtures.lateEvent in
  let dayStart := fst (localDayBounds 0 Fixtures.baseDate) in
  exists q : Q,
    rawGet "totalCommittedHours"
      (rawData (TimeBlockSignal_compute 0 [e] Fixtures.baseDate)) = Some q /\
    q == 4 /\
    hoursOverlap (startTime e) (endTime e) dayStart (dayStart + msPerDay)
    == 2 /\
    ~ q == hoursOverlap (startTime e) (endTime e) dayStart
            (dayStart + msPerDay).
Proof.
  cbv zeta. eexists. split; [vm_compute; reflexivity|].
  split; [vm_compute; reflexivity|].
  split; [vm_compute; reflexivity|].
  vm_compute. discriminate.
Qed.

Lemma midnight_event_counted_in_full_witness :
  In Fixtures.lateEvent
    (eventsOnDate 0 [Fixtures.lateEvent] Fixtures.baseDate) /\
  In Fixtures.lateEvent
    (eventsOnDate 0 [Fixtures.lateEvent] (Fixtures.baseDate + msPerDay)).
Proof.
  split.
  - apply (midnight_event_counted_in_full 0 [Fixtures.lateEvent]
             Fixtures.lateEvent Fixtures.baseDate);
      [now left | vm_compute; split; reflexivity | now left].
  - apply (midnight_event_counted_in_full 0 [Fixtures.lateEvent]
             Fixtures.lateEvent Fixtures.baseDate);
      [now left | vm_compute; split; reflexivity | now right].
Defined.

End ScoringEngineFacts.

(** ** The pickup optimiser *)

Module PickupOptimizerFacts.
Import Js Calendar PickupOptimizer JsFacts.

Section Zone.
Variable tz : Z.

(** The head of the sorted candidates is the candidate of the earliest
    day that carries the largest combined score. *)
Lemma sorted_candidates_head (weekScores : list DayScore)
    (groceryItems : list Database.GroceryItem)
    (perishableMealDates : list PerishableMealDate) :
  weekScores <> [] ->
  exists (k : nat) (d : DayScore) (rest : list Scored),
    Array_sort byCombinedDescending
      (Array_map (scoreCandidate groceryItems perishableMealDates)
         weekScores)
    = scoreCandidate groceryItems perishableMealDates d k :: rest /\
    nth_error weekScores k = Some d /\
    (forall d', In d' weekScores ->
       combined (scoreCandidate groceryItems perishableMealDates d' 0)
       <= combined (scoreCandidate groceryItems perishableMealDates d 0)) /\
    (forall j d', (j < k)%nat -> nth_error weekScores j = Some d' ->
       combined (scoreCandidate groceryItems perishableMealDates d' 0)
       < combined (scoreCandidate groceryItems perishableMealDates d 0)).
Proof.
  intros Hne.
  set (f := scoreCandidate groceryItems perishableMealDates).
  destruct (sort_desc_head combined (Array_map f weekScores))
    as (k & b & rest & Hsort & Hk & Hmax & Hbefore).
  { destruct weekScores; [congruence | discriminate]. }
  unfold Array_map in Hk.
  destruct (map_from_nth f weekScores 0 k b Hk) as (d & Hd & Hb).
  simpl in Hb. subst b.
  exists k, d, rest. split; [exact Hsort|]. split; [exact Hd|]. split.
  - intros d' Hin.
    destruct (map_from_In f weekScores 0 d' Hin) as (k' & Hk').
    apply (Hmax _ Hk').
  - intros j d' Hj Hd'.
    apply (Hbefore j (f d' j) Hj).
    apply (map_from_nth_of f weekScores 0 j d' Hd').
Qed.

Lemma recommendPickupDay_returns (weekScores : list DayScore)
    (groceryItems : list Database.GroceryItem)
    (perishableMealDates : list PerishableMealDate) :
  weekScores <> [] ->
  exists (r : PickupRecommendation) (d : DayScore),
    recommendPickupDay tz weekScores groceryItems perishableMealDates
    = Normal r /\
    nth_error weekScores (dayIndex r) = Some d /\
    day r = date d /\
    PickupOptimizer.score r
    = combined (scoreCandidate groceryItems perishableMealDates d 0) /\
    (forall d', In d' weekScores ->
       combined (scoreCandidate groceryItems perishableMealDates d' 0)
       <= combined (scoreCandidate groceryItems perishableMealDates d 0)) /\
    (forall j d', (j < dayIndex r)%nat ->
       nth_error weekScores j = Some d' ->
       combined (scoreCandidate groceryItems perishableMealDates d' 0)
       < combined (scoreCandidate groceryItems perishableMealDates d 0)).
Proof.
  intros Hne.
  destruct (sorted_candidates_head weekScores groceryItems
              perishableMealDates Hne)
    as (k & d & rest & Hsort & Hk & Hmax & Hbefore).
  unfold recommendPickupDay.
  destruct weekScores as [|d0 ws]; [congruence|].
  change (List.length (d0 :: ws) =? 0)%nat with false. cbv iota.
  rewrite Hsort. unfold recommendBest.
  eexists. exists d. split; [reflexivity|]. simpl.
  split; [exact Hk|]. split; [reflexivity|]. split; [reflexivity|].
  split; [exact Hmax | exact Hbefore].
Qed.


(** C2: with no perishable meal dates every day has the neutral
    freshness 50 and the recommended day has the lowest [finalScore]
    of the week. *)
Theorem recommendPickupDay_least_busy (weekScores : list DayScore)
    (groceryItems : list Database.GroceryItem) :
  weekScores <> [] ->
  exists (r : PickupRecommendation) (d : DayScore),
    recommendPickupDay tz weekScores groceryItems [] = Normal r /\
    nth_error weekScores (dayIndex r) = Some d /\
    day r = date d /\
    (forall d', In d' weekScores ->
       computeFreshnessScore (date d') groceryItems [] = 50) /\
    (forall d', In d' weekScores -> finalScore d <= finalScore d').
Proof.
  intros Hne.
  destruct (recommendPickupDay_returns weekScores groceryItems [] Hne)
    as (r & d & Hr & Hk & Hday & _ & Hmax & _).
  exists r, d. split; [exact Hr|]. split; [exact Hk|].
  split; [exact Hday|]. split; [reflexivity|].
  intros d' Hin. specialize (Hmax d' Hin).
  simpl in Hmax. unfold computeFreshnessScore in Hmax. simpl in Hmax.
  unfold CALENDAR_WEIGHT, FRESHNESS_WEIGHT in Hmax. lra.
Qed.

(** C8: the empty [weekScores] is the one input that throws; every
    other input returns a recommendation, whatever the grocery items
    and the meal dates. *)
Theorem recommendPickupDay_throws_only_on_empty_week
    (weekScores : list DayScore)
    (groceryItems : list Database.GroceryItem)
    (perishableMealDates : list PerishableMealDate) :
  match weekScores with
  | [] =>
      recommendPickupDay tz weekScores groceryItems perishableMealDates
      = Throw "weekScores must contain at least one day"
  | _ :: _ =>
      exists r : PickupRecommendation,
        recommendPickupDay tz weekScores groceryItems perishableMealDates
        = Normal r
  end.
Proof.
  destruct weekScores as [|d0 ws]; [reflexivity|].
  destruct (recommendPickupDay_returns (d0 :: ws) groceryItems
              perishableMealDates) as (r & _ & Hr & _); [discriminate|].
  exists r. exact Hr.
Qed.
End Zone.

(** *** The store: what the call writes *)

Lemma nth_error_app_last {A : Type} (l : list A) (a : A) :
  nth_error (l ++ [a]) (List.length l) = Some a.
Proof. induction l; simpl; [reflexivity | assumption]. Qed.

Lemma nth_error_app_keep {A : Type} (l l' : list A) (p : nat) (a : A) :
  nth_error l p = Some a -> nth_error (l ++ l') p = Some a.
Proof.
  revert p. induction l as [|x xs IH]; intros [|p] H; simpl in *;
    try discriminate; [exact H | apply IH, H].
Qed.

Lemma storeSet_app_last (st : Store) (a b : ArrayObject) :
  storeSet (st ++ [a]) (List.length st) b = st ++ [b].
Proof. induction st; simpl; [reflexivity | now f_equal]. Qed.

Section ZoneStore.
Variable tz : Z.

(** Run on a store that holds the three argument arrays, the call
    computes [recommendPickupDay] of their contents and leaves the
    store extended by the one array it allocated, sorted. *)
Lemma recommendPickupDay_store_run (st : Store) (rw rg rp : Ref)
    (weekScores : list DayScore)
    (groceryItems : list Database.GroceryItem)
    (perishableMealDates : list PerishableMealDate) :
  nth_error st rw = Some (DayScoreArray weekScores) ->
  nth_error st rg = Some (GroceryItemArray groceryItems) ->
  nth_error st rp = Some (MealDateArray perishableMealDates) ->
  weekScores <> [] ->
  recommendPickupDay_store tz rw rg rp st
  = (recommendPickupDay tz weekScores groceryItems perishableMealDates,
     st ++ [ScoredArray
              (Array_sort byCombinedDescending
                 (Array_map
                    (scoreCandidate groceryItems perishableMealDates)
                    weekScores))]).
Proof.
  intros Hw Hg Hp Hne.
  unfold recommendPickupDay_store, recommendPickupDay, bind.
  unfold readDayScores. rewrite Hw.
  destruct weekScores as [|d0 ws]; [congruence|].
  change (List.length (d0 :: ws) =? 0)%nat with false. cbv iota.
  unfold readGroceryItems. rewrite Hg.
  unfold readMealDates. rewrite Hp.
  unfold allocArray, sortScoredInPlace.
  rewrite nth_error_app_last, storeSet_app_last.
  unfold readScored. rewrite nth_error_app_last.
  reflexivity.
Qed.

(** C10: for a non-empty week the recommendation is consistent with
    the input: [dayIndex] is a position of [weekScores], [day] is the
    date at that position and [score] is
    [0.6 * (100 - finalScore) + 0.4 * freshness] of that very day;
    every array that was in the store before the call, the three
    arguments among them, is unchanged after it. *)
Theorem recommendation_consistent_inputs_unchanged (st : Store)
    (rw rg rp : Ref) (weekScores : list DayScore)
    (groceryItems : list Database.GroceryItem)
    (perishableMealDates : list PerishableMealDate) :
  nth_error st rw = Some (DayScoreArray weekScores) ->
  nth_error st rg = Some (GroceryItemArray groceryItems) ->
  nth_error st rp = Some (MealDateArray perishableMealDates) ->
  weekScores <> [] ->
  exists (r : PickupRecommendation) (st' : Store) (d : DayScore),
    recommendPickupDay_store tz rw rg rp st = (Normal r, st') /\
    (dayIndex r < List.length weekScores)%nat /\
    nth_error weekScores (dayIndex r) = Some d /\
    day r = date d /\
    PickupOptimizer.score r
    == CALENDAR_WEIGHT * (100 - finalScore d)
       + FRESHNESS_WEIGHT
         * computeFreshnessScore (date d) groceryItems
             perishableMealDates /\
    (forall p a, nth_error st p = Some a -> nth_error st' p = Some a) /\
    nth_error st' rw = Some (DayScoreArray weekScores) /\
    nth_error st' rg = Some (GroceryItemArray groceryItems) /\
    nth_error st' rp = Some (MealDateArray perishableMealDates).
Proof.
  intros Hw Hg Hp Hne.
  destruct (recommendPickupDay_returns tz weekScores groceryItems
              perishableMealDates Hne)
    as (r & d & Hr & Hk & Hday & Hscore & _).
  rewrite (recommendPickupDay_store_run st rw rg rp _ _ _ Hw Hg Hp Hne).
  rewrite Hr. eexists r, _, d. split; [reflexivity|].
  split; [apply nth_error_Some; congruence|].
  split; [exact Hk|]. split; [exact Hday|].
  split; [rewrite Hscore; reflexivity|].
  split; [intros p a; apply nth_error_app_keep|].
  repeat split; apply nth_error_app_keep; assumption.
Qed.
End ZoneStore.

(** *** The freshness component *)

Lemma tableGet_In (key : string)
    (table : list (string * IngredientShelfLife.ShelfLifeEntry))
    (entry : IngredientShelfLife.ShelfLifeEntry) :
  IngredientShelfLife.tableGet key table = Some entry ->
  In entry (map snd table).
Proof.
  induction table as [|[k v] rest IH]; simpl; [discriminate|].
  destruct (String.eqb k key).
  - intros H. injection H as <-. now left.
  - intros H. right. apply IH, H.
Qed.

Lemma getShelfLife_maxDays_pos (category : string) :
  (0 < IngredientShelfLife.maxDays
         (IngredientShelfLife.getShelfLife category))%Z.
Proof.
  unfold IngredientShelfLife.getShelfLife.
  destruct (IngredientShelfLife.tableGet category
              IngredientShelfLife.SHELF_LIFE) as [entry|] eqn:Hget;
    [|reflexivity].
  apply tableGet_In in Hget.
  assert (Hall : Forall (fun e => (0 < IngredientShelfLife.maxDays e)%Z)
                   (map snd IngredientShelfLife.SHELF_LIFE))
    by (repeat constructor).
  rewrite Forall_forall in Hall. apply Hall, Hget.
Qed.

Lemma days_nonneg (ms : Z) :
  0 <= inject_Z ms / inject_Z msPerDay <-> (0 <= ms)%Z.
Proof.
  split; intros H.
  - apply Qmult_le_compat_r with (z := inject_Z msPerDay) in H;
      [|discriminate].
    rewrite Qmult_0_l in H. unfold Qdiv in H.
    rewrite <- Qmult_assoc, (Qmult_comm (/ _)), Qmult_inv_r in H
      by discriminate.
    rewrite Qmult_1_r in H. change 0 with (inject_Z 0) in H.
    rewrite <- Zle_Qle in H. exact H.
  - apply Qle_shift_div_l; [reflexivity|].
    rewrite Qmult_0_l. change 0 with (inject_Z 0).
    rewrite <- Zle_Qle. exact H.
Qed.

(** The value pushed for one meal, case by case. *)
Lemma mealScore_cases (pickupDate : Z) (meal : PerishableMealDate) :
  let gapDays :=
    inject_Z (plannedDate meal - pickupDate) / inject_Z msPerDay in
  let maxDays :=
    inject_Z (IngredientShelfLife.maxDays
                (IngredientShelfLife.getShelfLife (category meal))) in
  (gapDays < 0 -> mealScore pickupDate meal == 0) /\
  (0 <= gapDays <= maxDays ->
     mealScore pickupDate meal == 100 - gapDays / maxDays * 50 /\
     50 <= mealScore pickupDate meal <= 100) /\
  (maxDays < gapDays ->
     mealScore pickupDate meal
     == Qmax 0 (50 - Qmin 100 ((gapDays - maxDays) * 20)) /\
     0 <= mealScore pickupDate meal < 50).
Proof.
  intros gapDays maxDays. unfold mealScore.
  fold gapDays. fold maxDays.
  assert (Hpos : 0 < maxDays).
  { unfold maxDays. change 0 with (inject_Z 0). rewrite <- Zlt_Qlt.
    apply getShelfLife_maxDays_pos. }
  destruct (Qle_bool 0 gapDays) eqn:H0; simpl negb; cbv iota.
  - apply Qle_bool_iff in H0.
    destruct (Qle_bool gapDays maxDays) eqn:H1.
    + apply Qle_bool_iff in H1.
      assert (Hr0 : 0 <= gapDays / maxDays)
        by (apply Qle_shift_div_l; [exact Hpos | lra]).
      assert (Hr1 : gapDays / maxDays <= 1)
        by (apply Qle_shift_div_r; [exact Hpos | lra]).
      assert (Hmax : Math_max 0 (100 - gapDays / maxDays * 50)
                     == 100 - gapDays / maxDays * 50)
        by (unfold Math_max; apply Q.max_r; lra).
      split; [intros; lra|]. split; [|intros; lra].
      intros _. split; [exact Hmax | rewrite Hmax; lra].
    + assert (Hgt : maxDays < gapDays).
      { destruct (Qlt_le_dec maxDays gapDays) as [H|H]; [exact H|].
        apply Qle_bool_iff in H. congruence. }
      split; [intros; lra|]. split; [intros; lra|].
      intros _. unfold Math_max, Math_min. split; [reflexivity|].
      split; [apply Q.le_max_l|].
      assert (Hpen : 0 < Qmin 100 ((gapDays - maxDays) * 20))
        by (apply Q.min_glb_lt; lra).
      apply Q.max_lub_lt; lra.
  - assert (Hneg : gapDays < 0).
    { destruct (Qlt_le_dec gapDays 0) as [H|H]; [exact H|].
      apply Qle_bool_iff in H. congruence. }
    split; [intros; reflexivity|]. split; intros; lra.
Qed.

Lemma mealScore_range (pickupDate : Z) (meal : PerishableMealDate) :
  0 <= mealScore pickupDate meal <= 100.
Proof.
  pose proof (mealScore_cases pickupDate meal) as H. cbv zeta in H.
  destruct H as (Hneg & Hin & Hout).
  set (gapDays := inject_Z (plannedDate meal - pickupDate)
                  / inject_Z msPerDay) in *.
  set (maxDays := inject_Z (IngredientShelfLife.maxDays _)) in *.
  destruct (Qlt_le_dec gapDays 0) as [H|H].
  - rewrite (Hneg H). lra.
  - destruct (Qlt_le_dec maxDays gapDays) as [H'|H'].
    + destruct (Hout H') as (_ & ? & ?). lra.
    + destruct (Hin (conj H H')) as (_ & ? & ?). lra.
Qed.

Lemma scores_pushed (pickupDate : Z) (meals : list PerishableMealDate) :
  forall scores,
    fold_left (fun scores meal => scores ++ [mealScore pickupDate meal])
      meals scores
    = scores ++ map (mealScore pickupDate) meals.
Proof.
  induction meals as [|m ms IH]; intros scores; simpl.
  - now rewrite app_nil_r.
  - rewrite IH, <- app_assoc. reflexivity.
Qed.

Lemma sum_from (xs : list Q) :
  forall a,
    fold_left (fun sum s => sum + s) xs a
    == a + fold_right (fun s acc => s + acc) 0 xs.
Proof.
  induction xs as [|x rest IH]; intros a; simpl; [lra|].
  rewrite IH. lra.
Qed.

Lemma computeFreshnessScore_single (pickupDate : Z)
    (groceryItems : list Database.GroceryItem)
    (meal : PerishableMealDate) :
  computeFreshnessScore pickupDate groceryItems [meal]
  == mealScore pickupDate meal.
Proof.
  unfold computeFreshnessScore. simpl.
  unfold Qdiv. change (/ inject_Z 1) with 1. lra.
Qed.

Lemma computeFreshnessScore_total (pickupDate : Z)
    (groceryItems : list Database.GroceryItem)
    (meals : list PerishableMealDate) :
  meals <> [] ->
  computeFreshnessScore pickupDate groceryItems meals
  * inject_Z (Z.of_nat (List.length meals))
  == fold_right (fun s acc => s + acc) 0 (map (mealScore pickupDate) meals).
Proof.
  intros Hne. unfold computeFreshnessScore.
  destruct meals as [|m ms]; [congruence|].
  change (List.length (m :: ms) =? 0)%nat with false. cbv iota.
  rewrite scores_pushed, app_nil_l, length_map, sum_from.
  set (total := fold_right _ 0 _).
  unfold Qdiv. rewrite <- Qmult_assoc, (Qmult_comm (/ _)), Qmult_inv_r.
  - lra.
  - intros H. change 0 with (inject_Z 0) in H.
    apply inject_Z_injective in H. discriminate.
Qed.



(** *** Concrete weeks *)



(** The week of [pickupOptimizer.test.ts] without perishables:
    Saturday, the day of score 10, is recommended. *)
Lemma recommendPickupDay_least_busy_witness :
  Fixtures.weekScores <> [] /\
  exists (r : PickupRecommendation) (d : DayScore),
    recommendPickupDay 0 Fixtures.weekScores
      [Fixtures.makeGroceryItem "Rice" "Pantry";
       Fixtures.makeGroceryItem "Canned beans" "Canned Goods"] []
    = Normal r /\
    nth_error Fixtures.weekScores (dayIndex r) = Some d /\
    (forall d', In d' Fixtures.weekScores -> finalScore d <= finalScore d').
Proof.
  split; [discriminate|].
  destruct (recommendPickupDay_least_busy 0 Fixtures.weekScores
              [Fixtures.makeGroceryItem "Rice" "Pantry";
               Fixtures.makeGroceryItem "Canned beans" "Canned Goods"])
    as (r & d & Hr & Hk & _ & _ & Hmin); [discriminate|].
  exists r, d. repeat split; assumption.
Defined.


(** The test week, a seafood dinner on Friday, in a store of three
    arrays. *)
Lemma recommendation_consistent_inputs_unchanged_witness :
  let items := [Fixtures.makeGroceryItem "Salmon" "Seafood";
                Fixtures.makeGroceryItem "Rice" "Pantry"] in
  let meals := [Fixtures.makeMealDate "Seafood" (Fixtures.at_time 4 0 0)] in
  let st := [DayScoreArray Fixtures.weekScores; GroceryItemArray items;
             MealDateArray meals] in
  exists (r : PickupRecommendation) (st' : Store),
    recommendPickupDay_store 0 0%nat 1%nat 2%nat st = (Normal r, st') /\
    (dayIndex r < 7)%nat /\
    nth_error st' 0%nat = Some (DayScoreArray Fixtures.weekScores).
Proof.
  intros items meals st.
  destruct (recommendation_consistent_inputs_unchanged 0 st 0%nat 1%nat 2%nat
              Fixtures.weekScores items meals)
    as (r & st' & d & Hrun & Hidx & _ & _ & _ & _ & Hw & _);
    try reflexivity; [discriminate|].
  exists r, st'. split; [exact Hrun|]. split; [exact Hidx | exact Hw].
Defined.

End PickupOptimizerFacts.


(** ** The expectations of the test suites and the scenarios of the
    specification, replayed on the model (zone UTC) *)

Module TestSuite.
Import Js Calendar ScoringEngine.

Example empty_day_scores_zero :
  TimeBlockSignal_compute 0 [] Fixtures.baseDate
  = {| score := 0;
       reasoning := "Completely free day";
       rawData := [("totalCommittedHours", 0);
                   ("largestFreeBlockHours", 14);
                   ("backToBackCount", 0)]%string |}.
Proof. reflexivity. Qed.

Example lightly_booked_day_is_exploratory :
  let r :=
    TimeBlockSignal_compute 0
      [Fixtures.makeEvent (Fixtures.at_time 0 10 0) (Fixtures.at_time 0 11 0)]
      Fixtures.baseDate in
  score r = 5 /\
  reasoning r = "1.0h committed; largest free block 12.0h"%string.
Proof. vm_compute. split; reflexivity. Qed.

Example packed_day_is_quick :
  let r := TimeBlockSignal_compute 0 Fixtures.packedDay Fixtures.baseDate in
  score r = 68 /\ tierFromScore (score r) = quick /\
  reasoning r
  = "10.5h committed; 3 back-to-back; dinner prep conflict; lunch conflict; largest free block 3.0h"%string.
Proof. vm_compute. repeat split; reflexivity. Qed.

Example dinner_window_scores_higher_than_morning :
  let dinnerBlocked :=
    [Fixtures.makeEvent (Fixtures.at_time 0 17 0) (Fixtures.at_time 0 19 0)] in
  let morningOnly :=
    [Fixtures.makeEvent (Fixtures.at_time 0 9 0) (Fixtures.at_time 0 11 0)] in
  score (TimeBlockSignal_compute 0 morningOnly Fixtures.baseDate)
  < score (TimeBlockSignal_compute 0 dinnerBlocked Fixtures.baseDate).
Proof. vm_compute. reflexivity. Qed.

Example week_with_a_monday_event :
  map (fun d => (date d, finalScore d, tier d))
    (scoreWeek 0 (new_DayScoreEngine 0 None) Fixtures.mondayEvents
       Fixtures.baseDate)
  = [ (Fixtures.at_time 0 0 0, 38, standard);
      (Fixtures.at_time 1 0 0, 0, exploratory);
      (Fixtures.at_time 2 0 0, 0, exploratory);
      (Fixtures.at_time 3 0 0, 0, exploratory);
      (Fixtures.at_time 4 0 0, 0, exploratory);
      (Fixtures.at_time 5 0 0, 0, exploratory);
      (Fixtures.at_time 6 0 0, 0, exploratory) ].
Proof. vm_compute. reflexivity. Qed.

Example shelf_life_of_seafood :
  IngredientShelfLife.getShelfLife "Seafood"
  = {| IngredientShelfLife.category := IngredientShelfLife.short;
       IngredientShelfLife.minDays := 1;
       IngredientShelfLife.maxDays := 2 |}.
Proof. reflexivity. Qed.

Example shelf_life_of_an_unknown_category :
  IngredientShelfLife.getShelfLife "nonexistent-category"
  = IngredientShelfLife.DEFAULT_SHELF_LIFE.
Proof. reflexivity. Qed.

Example pickup_without_perishables_is_saturday :
  match
    PickupOptimizer.recommendPickupDay 0 Fixtures.weekScores
      [Fixtures.makeGroceryItem "Rice" "Pantry";
       Fixtures.makeGroceryItem "Canned beans" "Canned Goods"] []
  with
  | PickupOptimizer.Normal r =>
      PickupOptimizer.dayIndex r = 5%nat /\
      PickupOptimizer.day r = Fixtures.at_time 5 0 0 /\
      PickupOptimizer.score r == 74 /\
      PickupOptimizer.reasoning r
      = "Saturday is recommended for grocery pickup. Your calendar is very open that day."%string
  | PickupOptimizer.Throw _ => False
  end.
Proof. vm_compute. repeat split; reflexivity. Qed.

Example pickup_with_seafood_on_friday_is_friday :
  match
    PickupOptimizer.recommendPickupDay 0 Fixtures.weekScores
      [Fixtures.makeGroceryItem "Salmon" "Seafood";
       Fixtures.makeGroceryItem "Rice" "Pantry"]
      [Fixtures.makeMealDate "Seafood" (Fixtures.at_time 4 0 0)]
  with
  | PickupOptimizer.Normal r =>
      PickupOptimizer.dayIndex r = 4%nat /\
      PickupOptimizer.score r == 82
  | PickupOptimizer.Throw _ => False
  end.
Proof. vm_compute. repeat split; reflexivity. Qed.

End TestSuite.


(** ** More about the scoring engine *)

Module ScoringEngineExtras.
Import Js Calendar ScoringEngine JsFacts ScoringEngineFacts.

(** *** Overlap of two time ranges *)

Lemma hoursOverlap_closed_form (aStart aEnd bStart bEnd : Z) :
  hoursOverlap aStart aEnd bStart bEnd
  = (if (Z.min aEnd bEnd - Z.max aStart bStart >? 0)%Z
     then inject_Z (Z.min aEnd bEnd - Z.max aStart bStart)
          / inject_Z msPerHour
     else 0).
Proof.
  unfold hoursOverlap.
  replace (if (aStart >? bStart)%Z then aStart else bStart)
    with (Z.max aStart bStart)
    by (destruct (Z.gtb_spec aStart bStart); lia).
  replace (if (aEnd <? bEnd)%Z then aEnd else bEnd)
    with (Z.min aEnd bEnd)
    by (destruct (Z.ltb_spec aEnd bEnd); lia).
  reflexivity.
Qed.

Lemma ms_to_hours_le (m n : Z) :
  (m <= n)%Z -> inject_Z m / inject_Z msPerHour <= inject_Z n / inject_Z msPerHour.
Proof.
  intros H. unfold Qdiv. apply Qmult_le_compat_r.
  - rewrite <- Zle_Qle. exact H.
  - discriminate.
Qed.

(** X1: the overlap of two ranges is never negative, it does not depend
    on which range is given first, and it never exceeds the length of
    either range; ranges that only touch, or a range given backwards,
    overlap by 0. *)
Theorem hoursOverlap_bounds (aStart aEnd bStart bEnd : Z) :
  0 <= hoursOverlap aStart aEnd bStart bEnd /\
  hoursOverlap aStart aEnd bStart bEnd = hoursOverlap bStart bEnd aStart aEnd /\
  hoursOverlap aStart aEnd bStart bEnd
  <= inject_Z (Z.max 0 (aEnd - aStart)) / inject_Z msPerHour /\
  hoursOverlap aStart aEnd bStart bEnd
  <= inject_Z (Z.max 0 (bEnd - bStart)) / inject_Z msPerHour /\
  (hoursOverlap aStart aEnd bStart bEnd == 0 <->
   (Z.min aEnd bEnd <= Z.max aStart bStart)%Z).
Proof.
  rewrite (hoursOverlap_closed_form bStart bEnd aStart aEnd).
  rewrite (Z.min_comm bEnd aEnd), (Z.max_comm bStart aStart).
  rewrite hoursOverlap_closed_form.
  set (d := (Z.min aEnd bEnd - Z.max aStart bStart)%Z).
  assert (H0 : forall n, 0 <= inject_Z (Z.max 0 n) / inject_Z msPerHour).
  { intros n. apply Qle_shift_div_l; [reflexivity|].
    rewrite Qmult_0_l. change 0 with (inject_Z 0). rewrite <- Zle_Qle. lia. }
  destruct (Z.gtb_spec d 0) as [Hpos|Hneg].
  - split; [apply hours_positive; lia|]. split; [reflexivity|].
    split; [apply ms_to_hours_le; lia|]. split; [apply ms_to_hours_le; lia|].
    split; [|lia]. intros Hz. exfalso.
    assert (Hp : 0 < inject_Z d / inject_Z msPerHour).
    { apply Qlt_shift_div_l; [reflexivity|]. rewrite Qmult_0_l.
      change 0 with (inject_Z 0). rewrite <- Zlt_Qlt. lia. }
    rewrite Hz in Hp. discriminate.
  - split; [apply Qle_refl|]. split; [reflexivity|].
    split; [apply H0|]. split; [apply H0|].
    split; [lia | reflexivity].
Qed.

(** *** Tiers *)

(** X2: a higher score never gives a lighter tier: if the lower of two
    scores is quick so is the higher, and if the higher is exploratory
    so is the lower; equal numbers get the same tier. *)
Theorem tierFromScore_monotone (low high : Q) :
  low <= high ->
  (tierFromScore low = quick -> tierFromScore high = quick) /\
  (tierFromScore high = exploratory -> tierFromScore low = exploratory) /\
  (high <= low -> tierFromScore low = tierFromScore high).
Proof.
  intros Hle. unfold tierFromScore. simpl max.
  destruct (Qle_bool low 35) eqn:L35; destruct (Qle_bool low 65) eqn:L65;
    destruct (Qle_bool high 35) eqn:H35; destruct (Qle_bool high 65) eqn:H65;
    repeat match goal with
           | H : Qle_bool _ _ = true |- _ => apply Qle_bool_iff in H
           | H : Qle_bool ?x ?y = false |- _ =>
               assert (y < x)
                 by (destruct (Qlt_le_dec y x) as [?|Hc]; [assumption|];
                     apply Qle_bool_iff in Hc; congruence);
               clear H
           end;
    repeat split; intros; try reflexivity; try discriminate;
    exfalso; lra.
Qed.

(** *** The day filter *)

Section Zone.
Variable tz : Z.

Lemma eventsOnDate_idempotent (events : list CalendarEvent) (date : Z) :
  eventsOnDate tz (eventsOnDate tz events date) date
  = eventsOnDate tz events date.
Proof.
  unfold eventsOnDate. destruct (localDayBounds tz date) as [dayStart dayEnd].
  induction events as [|e rest IH]; simpl; [reflexivity|].
  destruct ((startTime e <=? dayEnd)%Z && (endTime e >=? dayStart)%Z) eqn:He;
    simpl; [rewrite He, IH; reflexivity | exact IH].
Qed.

(** X3: events that start after the day ends or end before it starts
    have no influence on any field of the day's result. *)
Theorem compute_ignores_other_days (events others : list CalendarEvent)
    (date : Z) :
  Forall (fun e => (startTime e > snd (localDayBounds tz date))%Z \/
                   (endTime e < fst (localDayBounds tz date))%Z) others ->
  TimeBlockSignal_compute tz (events ++ others) date
  = TimeBlockSignal_compute tz events date /\
  TimeBlockSignal_compute tz (others ++ events) date
  = TimeBlockSignal_compute tz events date.
Proof.
  intros Hothers.
  assert (Hnone : eventsOnDate tz others date = []).
  { unfold eventsOnDate in *.
    destruct (localDayBounds tz date) as [dayStart dayEnd]. simpl in *.
    induction Hothers as [|e rest He _ IH]; [reflexivity|].
    simpl. rewrite IH.
    destruct (Z.leb_spec (startTime e) dayEnd);
      destruct (Z.geb_spec (endTime e) dayStart); simpl; try reflexivity.
    lia. }
  assert (Happ : forall l l',
             eventsOnDate tz (l ++ l') date
             = eventsOnDate tz l date ++ eventsOnDate tz l' date).
  { intros l l'. unfold eventsOnDate.
    destruct (localDayBounds tz date). apply filter_app. }
  unfold TimeBlockSignal_compute.
  rewrite !Happ, Hnone, app_nil_r. simpl app. split; reflexivity.
Qed.

(** *** The largest free block *)

Lemma freeBlockStep_bounded (wakingStart wakingEnd latest : Z)
    (sorted : list CalendarEvent) :
  (wakingStart <= wakingEnd)%Z ->
  Forall (fun e => (startTime e <= latest)%Z) sorted ->
  forall st,
    (wakingStart <= snd st)%Z ->
    Forall (fun b => b <= inject_Z (Z.max latest wakingEnd - wakingStart)
                          / inject_Z msPerHour) (fst st) ->
    let st' := fold_left (freeBlockStep wakingStart wakingEnd) sorted st in
    (wakingStart <= snd st')%Z /\
    Forall (fun b => b <= inject_Z (Z.max latest wakingEnd - wakingStart)
                          / inject_Z msPerHour) (fst st').
Proof.
  intros Hwaking.
  induction 1 as [|e rest He _ IH]; intros [freeBlocks cursor] Hc Hb;
    simpl in *; [split; assumption|].
  apply IH; simpl; [lia|].
  destruct (Z.max (startTime e) wakingStart >? cursor)%Z; [|exact Hb].
  apply Forall_app. split; [exact Hb|].
  constructor; [|constructor]. apply ms_to_hours_le. lia.
Qed.

Lemma fold_Math_max_le (bound : Q) (xs : list Q) :
  Forall (fun b => b <= bound) xs ->
  forall x, x <= bound -> fold_left Math_max xs x <= bound.
Proof.
  induction 1 as [|y ys Hy _ IH]; intros x Hx; simpl; [exact Hx|].
  apply IH. unfold Math_max. apply Q.max_lub; assumption.
Qed.

(** X4: on a day with events the largest free block reported in
    [rawData] is between 0 and 17 hours (excluded).  The waking window
    spans 16 hours, but a block that ends at the start of an event after
    23:00 is measured up to that start. *)
Theorem largestFreeBlockHours_range (events : list CalendarEvent)
    (date : Z) :
  eventsOnDate tz events date <> [] ->
  exists h : Q,
    rawGet "largestFreeBlockHours"
      (rawData (TimeBlockSignal_compute tz events date)) = Some h /\
    0 <= h < 17.
Proof.
  intros Hbusy. unfold TimeBlockSignal_compute.
  destruct (eventsOnDate tz events date) as [|e rest] eqn:Hday;
    [congruence|].
  change (List.length (e :: rest) =? 0)%nat with false. cbv beta iota zeta.
  set (sorted := Array_sort byStartTime (e :: rest)).
  eexists. split; [reflexivity|].
  set (dayStart := fst (localDayBounds tz date)).
  assert (Hbase : dayStart = Date_local tz (utcDay date) 0 0 0 0)
    by reflexivity.
  assert (Hstarts : Forall (fun ev => (startTime ev <= dayStart + 86399999)%Z)
                      sorted).
  { apply Forall_forall. intros ev Hev.
    apply (Permutation_in _ (Permutation_sym (Array_sort_perm _ _))) in Hev.
    rewrite <- Hday in Hev. apply eventsOnDate_In in Hev.
    destruct Hev as (_ & Hs & _). subst dayStart.
    unfold localDayBounds, Date_local, msPerDay, msPerHour, msPerMinute,
      msPerSecond in *. simpl in *. lia. }
  assert (Hws : setHours tz dayStart 7 0 0 0 = (dayStart + 25200000)%Z).
  { rewrite Hbase, setHours_of_local_midnight.
    unfold Date_local, msPerHour, msPerMinute, msPerSecond. lia. }
  assert (Hwe : setHours tz dayStart 23 0 0 0 = (dayStart + 82800000)%Z).
  { rewrite Hbase, setHours_of_local_midnight.
    unfold Date_local, msPerHour, msPerMinute, msPerSecond. lia. }
  rewrite Hws, Hwe. clear Hws Hwe Hbase.
  split.
  - apply largestFreeBlockHours_nonneg, freeBlocksOf_nonneg.
  - set (bound := inject_Z (Z.max (dayStart + 86399999) (dayStart + 82800000)
                            - (dayStart + 25200000)) / inject_Z msPerHour).
    assert (Hbound : 0 <= bound /\ bound < 17).
    { unfold bound.
      replace (Z.max (dayStart + 86399999) (dayStart + 82800000)
               - (dayStart + 25200000))%Z with 61199999%Z by lia.
      split; [discriminate | reflexivity]. }
    destruct Hbound as [Hbound0 Hbound].
    apply Qle_lt_trans with bound; [|exact Hbound].
    unfold freeBlocksOf.
    pose proof (freeBlockStep_bounded (dayStart + 25200000)
                  (dayStart + 82800000) (dayStart + 86399999) sorted
                  ltac:(lia) Hstarts
                  ([], (dayStart + 25200000)%Z) (Z.le_refl _) (Forall_nil _))
      as Hinv.
    cbv zeta in Hinv. fold bound in Hinv.
    destruct (fold_left _ sorted _) as [freeBlocks cursor].
    simpl in Hinv. destruct Hinv as [Hc Hall].
    assert (Hall' : Forall (fun b => b <= bound)
              (if (cursor <? dayStart + 82800000)%Z
               then freeBlocks
                    ++ [inject_Z (dayStart + 82800000 - cursor)
                        / inject_Z msPerHour]
               else freeBlocks)).
    { destruct (cursor <? dayStart + 82800000)%Z; [|exact Hall].
      apply Forall_app. split; [exact Hall|].
      constructor; [|constructor]. apply ms_to_hours_le. lia. }
    destruct (if (cursor <? dayStart + 82800000)%Z then _ else _)
      as [|x xs]; [exact Hbound0|].
    inversion Hall'; subst. simpl.
    apply fold_Math_max_le; assumption.
Qed.

(** *** Free days of a week *)



(** *** The order of the events *)

Lemma startTime_le_iff (a b : CalendarEvent) :
  Qle_bool (byStartTime a b) 0 = true <-> (startTime a <= startTime b)%Z.
Proof.
  unfold byStartTime. rewrite Qle_bool_iff, (Zle_Qle (startTime a)). lra.
Qed.

Lemma sort_insert_byStartTime_sorted (x : CalendarEvent)
    (l : list CalendarEvent) :
  StronglySorted (fun a b => (startTime a <= startTime b)%Z) l ->
  StronglySorted (fun a b => (startTime a <= startTime b)%Z)
    (sort_insert byStartTime x l).
Proof.
  induction 1 as [|y ys Hys IH Hy]; simpl.
  - constructor; constructor.
  - destruct (Qle_bool (byStartTime x y) 0) eqn:Hc.
    + apply startTime_le_iff in Hc.
      constructor; [constructor; assumption|].
      constructor; [exact Hc|].
      rewrite Forall_forall in *. intros z Hz. specialize (Hy z Hz). lia.
    + assert (Hlt : (startTime y < startTime x)%Z).
      { destruct (Z.le_gt_cases (startTime x) (startTime y)) as [H|H];
          [|lia].
        apply startTime_le_iff in H. congruence. }
      constructor; [exact IH|].
      rewrite Forall_forall in *. intros z Hz.
      apply (Permutation_in _ (Permutation_sym (sort_insert_perm _ _ _)))
        in Hz.
      destruct Hz as [<-|Hz]; [lia | apply Hy, Hz].
Qed.

Lemma Array_sort_byStartTime_sorted (l : list CalendarEvent) :
  StronglySorted (fun a b => (startTime a <= startTime b)%Z)
    (Array_sort byStartTime l).
Proof.
  induction l as [|x xs IH]; simpl; [constructor|].
  apply sort_insert_byStartTime_sorted, IH.
Qed.

Lemma sorted_by_distinct_starts_unique (l : list CalendarEvent) :
  forall l',
    StronglySorted (fun a b => (startTime a <= startTime b)%Z) l ->
    StronglySorted (fun a b => (startTime a <= startTime b)%Z) l' ->
    Permutation l l' ->
    NoDup (map startTime l) ->
    l = l'.
Proof.
  induction l as [|x xs IH]; intros l' Hs Hs' Hp Hnd.
  - apply Permutation_nil in Hp. now subst.
  - destruct l' as [|y ys];
      [apply Permutation_sym, Permutation_nil in Hp; discriminate|].
    inversion Hs as [|? ? Hxs Hx]; subst.
    inversion Hs' as [|? ? Hys Hy]; subst.
    inversion Hnd as [|? ? Hnotin Hnd']; subst.
    rewrite Forall_forall in Hx, Hy.
    assert (Hxy : x = y).
    { assert (Hxin : In x (y :: ys))
        by (apply (Permutation_in _ Hp); now left).
      assert (Hyin : In y (x :: xs))
        by (apply (Permutation_in _ (Permutation_sym Hp)); now left).
      destruct Hxin as [->|Hxin]; [reflexivity|].
      destruct Hyin as [->|Hyin]; [reflexivity|].
      exfalso. apply Hnotin.
      specialize (Hx y Hyin). specialize (Hy x Hxin).
      replace (startTime x) with (startTime y) by lia.
      apply in_map, Hyin. }
    subst y. f_equal.
    apply IH; [assumption | assumption | | assumption].
    apply Permutation_cons_inv with x. exact Hp.
Qed.

Lemma eventsOnDate_perm (events events' : list CalendarEvent) (date : Z) :
  Permutation events events' ->
  Permutation (eventsOnDate tz events date) (eventsOnDate tz events' date).
Proof.
  unfold eventsOnDate. destruct (localDayBounds tz date) as [dayStart dayEnd].
  induction 1 as [|x l l' _ IH|x y l|l l' l'' _ IH1 _ IH2]; simpl.
  - constructor.
  - destruct (_ && _); [constructor|]; exact IH.
  - destruct ((startTime y <=? dayEnd)%Z && (endTime y >=? dayStart)%Z);
      destruct ((startTime x <=? dayEnd)%Z && (endTime x >=? dayStart)%Z);
      try apply Permutation_refl. apply perm_swap.
  - eapply perm_trans; eassumption.
Qed.

(** X6: when the events of the day start at pairwise different times,
    the result of the signal does not depend on the order in which the
    events are given. *)
Theorem compute_order_independent (events events' : list CalendarEvent)
    (date : Z) :
  Permutation events events' ->
  NoDup (map startTime (eventsOnDate tz events date)) ->
  TimeBlockSignal_compute tz events date
  = TimeBlockSignal_compute tz events' date.
Proof.
  intros Hperm Hnodup.
  pose proof (eventsOnDate_perm events events' date Hperm) as Hday.
  assert (Hsorted :
    Array_sort byStartTime (eventsOnDate tz events date)
    = Array_sort byStartTime (eventsOnDate tz events' date)).
  { apply sorted_by_distinct_starts_unique;
      try apply Array_sort_byStartTime_sorted.
    - eapply perm_trans; [symmetry; apply Array_sort_perm|].
      eapply perm_trans; [exact Hday | apply Array_sort_perm].
    - eapply Permutation_NoDup; [|exact Hnodup].
      apply Permutation_map, Array_sort_perm. }
  unfold TimeBlockSignal_compute.
  rewrite <- Hsorted, <- (Permutation_length Hday). reflexivity.
Qed.

(** *** Engines with other signals *)

(** X7: for every list of signals that keep their score between 0 and
    100 and carry non-negative weights, each day of [scoreWeek] has an
    integer final score between 0 and 100 and one breakdown entry per
    signal, in the order of the signals. *)
Theorem scoreWeek_range_for_any_signals (engine : DayScoreEngine)
    (events : list CalendarEvent) (weekStart : Z) (d : DayScore) :
  (forall s ev day, In s (signals engine) ->
                    0 <= weight s /\ 0 <= score (compute s ev day) <= 100) ->
  In d (scoreWeek tz engine events weekStart) ->
  (exists n : Z, finalScore d = inject_Z n /\ (0 <= n <= 100)%Z) /\
  signalBreakdown d
  = map (fun s => compute s events (date d)) (signals engine).
Proof.
  intros Hsigs Hd. rewrite scoreWeek_days in Hd.
  apply in_map_iff in Hd. destruct Hd as (i & <- & _).
  split; [apply scoreWeekDay_range, Hsigs|].
  unfold scoreWeekDay.
  set (day := setDate_plus tz weekStart (Z.of_nat i)).
  assert (Hres : forall sigs st,
             fst (fst (fold_left (signalStep events day) sigs st))
             = fst (fst st) ++ map (fun s => compute s events day) sigs).
  { induction sigs as [|s rest IH]; intros [[results tws] tw]; simpl.
    - now rewrite app_nil_r.
    - rewrite IH. simpl. now rewrite <- app_assoc. }
  specialize (Hres (signals engine) ([], 0, 0)).
  destruct (fold_left _ _ _) as [[results tws] tw]. simpl in *.
  exact Hres.
Qed.

(** *** Days with a single event *)

(** X8: a day with exactly one event never scores above 75: the 25
    points of the back-to-back factor need a second event. *)
Theorem single_event_day_at_most_75 (events : list CalendarEvent)
    (date : Z) (e : CalendarEvent) :
  eventsOnDate tz events date = [e] ->
  exists n : Z,
    score (TimeBlockSignal_compute tz events date) = inject_Z n /\
    (0 <= n <= 75)%Z.
Proof.
  intros Hday. unfold TimeBlockSignal_compute. rewrite Hday.
  change (List.length [e] =? 0)%nat with false. cbv beta iota zeta.
  change (Array_sort byStartTime [e]) with [e].
  set (dinner := windowOverlapHours [e] _ _).
  set (lunch := windowOverlapHours [e] _ _).
  set (freeBlocks := freeBlocksOf [e] _ _).
  pose proof (committedPts_cap (totalCommittedHoursOf [e])) as Hc.
  pose proof (mealPts_cap dinner lunch) as Hm.
  pose proof (freeBlockPts_cap (largestFreeBlockHoursOf freeBlocks)
                (largestFreeBlockHours_nonneg _
                   (freeBlocksOf_nonneg _ _ _))) as Hf.
  assert (Hb : b2bPtsOf [e] (countBackToBack [e]) == 0) by reflexivity.
  set (c := committedPtsOf _) in *. set (b := b2bPtsOf _ _) in *.
  set (m := mealPtsOf _ _) in *. set (f := freeBlockPtsOf _) in *.
  simpl score. unfold scoreOfRaw, Math_min, Math_max.
  apply Math_round_range.
  - apply Q.min_glb; [discriminate | apply Q.le_max_l].
  - eapply Qle_trans; [apply Q.le_min_r|].
    apply Q.max_lub; [discriminate|]. change (inject_Z 75) with 75. lra.
Qed.

(** X9: when every event of the sorted day ends at most 15 minutes
    before the next one starts (two events at least), the back-to-back
    factor gives its full 25 points; when every gap is longer it gives
    none. *)
Theorem b2bPts_extremes (sorted : list CalendarEvent) :
  (2 <= List.length sorted)%nat ->
  ((forall i a b, nth_error sorted i = Some a ->
                  nth_error sorted (S i) = Some b ->
                  (startTime b - endTime a <= 15 * msPerMinute)%Z) ->
   b2bPtsOf sorted (countBackToBack sorted) == 25) /\
  ((forall i a b, nth_error sorted i = Some a ->
                  nth_error sorted (S i) = Some b ->
                  (startTime b - endTime a > 15 * msPerMinute)%Z) ->
   b2bPtsOf sorted (countBackToBack sorted) == 0).
Proof.
  intros Hlen.
  assert (Hgap : forall a b,
             Qle_bool (inject_Z (startTime b - endTime a)
                       / inject_Z msPerMinute)
               (inject_Z BACK_TO_BACK_GAP_MINUTES) = true
             <-> (startTime b - endTime a <= 15 * msPerMinute)%Z).
  { intros a b. rewrite Qle_bool_iff. split; intros H.
    - apply Qmult_le_compat_r with (z := inject_Z msPerMinute) in H;
        [|discriminate].
      unfold Qdiv in H.
      rewrite <- Qmult_assoc, (Qmult_comm (/ _)), Qmult_inv_r, Qmult_1_r in H
        by discriminate.
      rewrite <- inject_Z_mult, <- Zle_Qle in H. exact H.
    - apply Qle_shift_div_r; [reflexivity|].
      rewrite <- inject_Z_mult, <- Zle_Qle. exact H. }
  assert (Hall : (forall i a b, nth_error sorted i = Some a ->
                     nth_error sorted (S i) = Some b ->
                     (startTime b - endTime a <= 15 * msPerMinute)%Z) ->
                 countBackToBack sorted
                 = Z.max 0 (Z.of_nat (List.length sorted) - 1)).
  { clear Hlen. induction sorted as [|e rest IH]; intros H; [reflexivity|].
    destruct rest as [|next rest']; [reflexivity|].
    change (countBackToBack (e :: next :: rest'))
      with ((if Qle_bool
                  (inject_Z (startTime next - endTime e)
                   / inject_Z msPerMinute)
                  (inject_Z BACK_TO_BACK_GAP_MINUTES)
             then 1 else 0) + countBackToBack (next :: rest'))%Z.
    rewrite (proj2 (Hgap e next) (H 0%nat e next eq_refl eq_refl)).
    rewrite IH by (intros i a b Ha Hb; apply (H (S i) a b Ha Hb)).
    simpl List.length. lia. }
  assert (Hlen' : (2 <= Z.of_nat (List.length sorted))%Z) by lia.
  assert (Hnone : (forall i a b, nth_error sorted i = Some a ->
                      nth_error sorted (S i) = Some b ->
                      (startTime b - endTime a > 15 * msPerMinute)%Z) ->
                  countBackToBack sorted = 0%Z).
  { clear Hlen Hlen' Hall. induction sorted as [|e rest IH]; intros H;
      [reflexivity|].
    destruct rest as [|next rest']; [reflexivity|].
    change (countBackToBack (e :: next :: rest'))
      with ((if Qle_bool
                  (inject_Z (startTime next - endTime e)
                   / inject_Z msPerMinute)
                  (inject_Z BACK_TO_BACK_GAP_MINUTES)
             then 1 else 0) + countBackToBack (next :: rest'))%Z.
    destruct (Qle_bool _ _) eqn:Hc.
    - apply Hgap in Hc. specialize (H 0%nat e next eq_refl eq_refl). lia.
    - rewrite IH by (intros i a b Ha Hb; apply (H (S i) a b Ha Hb)).
      reflexivity. }
  unfold b2bPtsOf. split; intros H.
  - rewrite (Hall H).
    replace (Z.max 0 (Z.of_nat (List.length sorted) - 1))
      with (Z.of_nat (List.length sorted) - 1)%Z by lia.
    replace (Z.max (Z.of_nat (List.length sorted) - 1) 1)
      with (Z.of_nat (List.length sorted) - 1)%Z by lia.
    set (n := inject_Z (Z.of_nat (List.length sorted) - 1)).
    assert (Hn : ~ n == 0).
    { unfold n. change 0 with (inject_Z 0). rewrite inject_Z_injective. lia. }
    unfold Qdiv. rewrite Qmult_inv_r by exact Hn. reflexivity.
  - rewrite (Hnone H). unfold Qdiv. rewrite Qmult_0_l. reflexivity.
Qed.
End Zone.

(** *** Concrete days *)

Lemma compute_ignores_other_days_witness :
  TimeBlockSignal_compute 0
    (Fixtures.mondayEvents ++ [MoreFixtures.tuesdayEvent]) Fixtures.baseDate
  = TimeBlockSignal_compute 0 Fixtures.mondayEvents Fixtures.baseDate.
Proof.
  apply (compute_ignores_other_days 0 Fixtures.mondayEvents
           [MoreFixtures.tuesdayEvent] Fixtures.baseDate).
  constructor; [|constructor]. left. vm_compute. reflexivity.
Defined.

Lemma largestFreeBlockHours_range_witness :
  exists h : Q,
    rawGet "largestFreeBlockHours"
      (rawData (TimeBlockSignal_compute 0 Fixtures.packedDay
                  Fixtures.baseDate)) = Some h /\
    0 <= h < 17.
Proof.
  apply (largestFreeBlockHours_range 0 Fixtures.packedDay Fixtures.baseDate).
  vm_compute. discriminate.
Defined.


Lemma compute_order_independent_witness :
  TimeBlockSignal_compute 0 [MoreFixtures.morning; MoreFixtures.afternoon]
    Fixtures.baseDate
  = TimeBlockSignal_compute 0 [MoreFixtures.afternoon; MoreFixtures.morning]
      Fixtures.baseDate.
Proof.
  apply compute_order_independent.
  - apply perm_swap.
  - vm_compute. repeat constructor; simpl; intuition discriminate.
Defined.

Lemma scoreWeek_range_for_any_signals_witness :
  let engine := new_DayScoreEngine 0 (Some [MoreFixtures.constantSignal]) in
  let d := scoreWeekDay 0 engine [] Fixtures.baseDate 0 in
  exists n : Z, finalScore d = inject_Z n /\ (0 <= n <= 100)%Z.
Proof.
  intros engine d.
  apply (scoreWeek_range_for_any_signals 0 engine [] Fixtures.baseDate d).
  - intros s ev day [<-|[]]. simpl. repeat split; discriminate.
  - rewrite scoreWeek_days. left. reflexivity.
Defined.

Lemma tierFromScore_monotone_witness :
  70 <= 90 /\ tierFromScore 70 = quick /\ tierFromScore 90 = quick.
Proof.
  assert (Hle : 70 <= 90) by discriminate.
  split; [exact Hle|]. split; [reflexivity|].
  destruct (tierFromScore_monotone 70 90 Hle) as [H _]. apply H. reflexivity.
Defined.

Lemma single_event_day_at_most_75_witness :
  exists n : Z,
    score (TimeBlockSignal_compute 0 Fixtures.mondayEvents Fixtures.baseDate)
    = inject_Z n /\ (0 <= n <= 75)%Z.
Proof.
  apply (single_event_day_at_most_75 0 Fixtures.mondayEvents
           Fixtures.baseDate (Fixtures.makeEvent (Fixtures.at_time 0 9 0)
                                (Fixtures.at_time 0 17 0))).
  reflexivity.
Defined.

Lemma b2bPts_extremes_witness :
  b2bPtsOf [MoreFixtures.morning; MoreFixtures.afternoon]
    (countBackToBack [MoreFixtures.morning; MoreFixtures.afternoon]) == 0.
Proof.
  apply (b2bPts_extremes [MoreFixtures.morning; MoreFixtures.afternoon]).
  - simpl. lia.
  - intros [|[|i]] a b Ha Hb; simpl in Ha, Hb; try discriminate.
    injection Ha as <-. injection Hb as <-. vm_compute. reflexivity.
Defined.

End ScoringEngineExtras.


(** ** More about the shelf-life table and the pickup optimiser *)

Module PickupOptimizerExtras.
Import Js Calendar PickupOptimizer JsFacts PickupOptimizerFacts.

(** *** The shelf-life table *)






(** *** Freshness *)

Lemma gapDays_le (pickupDate p1 p2 : Z) :
  (p1 <= p2)%Z ->
  inject_Z (p1 - pickupDate) / inject_Z msPerDay
  <= inject_Z (p2 - pickupDate) / inject_Z msPerDay.
Proof.
  intros H. unfold Qdiv. apply Qmult_le_compat_r; [|discriminate].
  rewrite <- Zle_Qle. lia.
Qed.

Lemma gapDays_neg (pickupDate p : Z) :
  (p < pickupDate)%Z ->
  inject_Z (p - pickupDate) / inject_Z msPerDay < 0.
Proof.
  intros H.
  destruct (Qlt_le_dec (inject_Z (p - pickupDate) / inject_Z msPerDay) 0)
    as [Hlt|Hge]; [exact Hlt|].
  pose proof (proj1 (days_nonneg (p - pickupDate)) Hge). exfalso. lia.
Qed.

(** X12: for one category, a meal planned later is never fresher: from
    the pickup day on, the freshness of a single meal date does not
    increase when the planned date moves away from the pickup day. *)
Theorem freshness_decreases_with_gap (pickupDate : Z)
    (groceryItems : list Database.GroceryItem) (m1 m2 : PerishableMealDate) :
  category m1 = category m2 ->
  (pickupDate <= plannedDate m1 <= plannedDate m2)%Z ->
  computeFreshnessScore pickupDate groceryItems [m2]
  <= computeFreshnessScore pickupDate groceryItems [m1].
Proof.
  intros Hcat [Hfrom Hle].
  rewrite !computeFreshnessScore_single.
  pose proof (mealScore_cases pickupDate m1) as H1.
  pose proof (mealScore_cases pickupDate m2) as H2.
  cbv zeta in H1, H2. rewrite <- Hcat in H2.
  pose proof (gapDays_le pickupDate _ _ Hle) as Hgap.
  assert (Hg1 : 0 <= inject_Z (plannedDate m1 - pickupDate)
                     / inject_Z msPerDay) by (apply days_nonneg; lia).
  set (g1 := inject_Z (plannedDate m1 - pickupDate) / inject_Z msPerDay) in *.
  set (g2 := inject_Z (plannedDate m2 - pickupDate) / inject_Z msPerDay) in *.
  set (maxDays := inject_Z (IngredientShelfLife.maxDays _)) in *.
  assert (Hpos : 0 < maxDays).
  { unfold maxDays. change 0 with (inject_Z 0). rewrite <- Zlt_Qlt.
    apply getShelfLife_maxDays_pos. }
  destruct H1 as (_ & Hin1 & Hout1). destruct H2 as (_ & Hin2 & Hout2).
  destruct (Qlt_le_dec maxDays g1) as [Hbeyond1|Hwithin1].
  - destruct (Hout1 Hbeyond1) as (E1 & _).
    destruct (Hout2 ltac:(lra)) as (E2 & _).
    rewrite E1, E2.
    apply Q.max_le_compat_l.
    assert (Qmin 100 ((g1 - maxDays) * 20) <= Qmin 100 ((g2 - maxDays) * 20))
      by (apply Q.min_le_compat_l; lra).
    lra.
  - destruct (Hin1 (conj Hg1 Hwithin1)) as (E1 & Hr1 & _).
    destruct (Qlt_le_dec maxDays g2) as [Hbeyond2|Hwithin2].
    + destruct (Hout2 Hbeyond2) as (_ & _ & Hlt). lra.
    + destruct (Hin2 ltac:(split; lra)) as (E2 & _).
      rewrite E1, E2.
      assert (g1 / maxDays <= g2 / maxDays).
      { unfold Qdiv. apply Qmult_le_compat_r; [exact Hgap|].
        apply Qlt_le_weak, Qinv_lt_0_compat, Hpos. }
      lra.
Qed.

Lemma sum_nonneg (xs : list Q) :
  Forall (fun x => 0 <= x) xs ->
  0 <= fold_right (fun s acc => s + acc) 0 xs.
Proof.
  induction 1 as [|x rest Hx _ IH]; simpl; [apply Qle_refl | lra].
Qed.

Lemma sum_ge_member (xs : list Q) (x : Q) :
  Forall (fun y => 0 <= y) xs -> In x xs ->
  x <= fold_right (fun s acc => s + acc) 0 xs.
Proof.
  induction 1 as [|y rest Hy Hrest IH]; intros Hin; [destruct Hin|].
  simpl. destruct Hin as [->|Hin].
  - pose proof (sum_nonneg rest Hrest). lra.
  - specialize (IH Hin). lra.
Qed.

Lemma mealScores_nonneg (pickupDate : Z) (meals : list PerishableMealDate) :
  Forall (fun y => 0 <= y) (map (mealScore pickupDate) meals).
Proof.
  apply Forall_forall. intros y Hy. apply in_map_iff in Hy.
  destruct Hy as (m & <- & _). apply mealScore_range.
Qed.

Lemma meals_count_pos (meals : list PerishableMealDate) :
  meals <> [] -> 0 < inject_Z (Z.of_nat (List.length meals)).
Proof.
  intros Hne. change 0 with (inject_Z 0). rewrite <- Zlt_Qlt.
  destruct meals; [congruence | simpl; lia].
Qed.

Lemma freshness_late_zero (pickupDate : Z)
    (groceryItems : list Database.GroceryItem)
    (meals : list PerishableMealDate) :
  meals <> [] ->
  (forall m, In m meals -> (plannedDate m < pickupDate)%Z) ->
  computeFreshnessScore pickupDate groceryItems meals == 0.
Proof.
  intros Hne Hlate.
  pose proof (computeFreshnessScore_total pickupDate groceryItems meals Hne)
    as Htotal.
  pose proof (meals_count_pos meals Hne) as Hn.
  set (n := inject_Z (Z.of_nat (List.length meals))) in *.
  assert (Hzero : fold_right (fun s acc => s + acc) 0
                    (map (mealScore pickupDate) meals) == 0).
  { clear Htotal Hne Hn n. induction meals as [|m ms IH]; [reflexivity|].
    simpl.
    destruct (mealScore_cases pickupDate m) as (Hneg & _).
    rewrite (Hneg (gapDays_neg _ _ (Hlate m (or_introl eq_refl)))).
    rewrite IH; [reflexivity|]. intros m' Hm'. apply Hlate. now right. }
  rewrite Hzero in Htotal.
  apply Qmult_integral in Htotal. destruct Htotal as [H|H]; [exact H|].
  rewrite H in Hn. discriminate.
Qed.

Lemma freshness_reach_pos (pickupDate : Z)
    (groceryItems : list Database.GroceryItem)
    (meals : list PerishableMealDate) (m : PerishableMealDate) :
  In m meals ->
  (pickupDate <= plannedDate m
   <= pickupDate
      + IngredientShelfLife.maxDays
          (IngredientShelfLife.getShelfLife (category m)) * msPerDay)%Z ->
  0 < computeFreshnessScore pickupDate groceryItems meals.
Proof.
  intros Hin [Hfrom Hto].
  assert (Hne : meals <> []) by (destruct meals; [destruct Hin | discriminate]).
  pose proof (computeFreshnessScore_total pickupDate groceryItems meals Hne)
    as Htotal.
  pose proof (meals_count_pos meals Hne) as Hn.
  set (n := inject_Z (Z.of_nat (List.length meals))) in *.
  assert (Hscore : 50 <= mealScore pickupDate m).
  { destruct (mealScore_cases pickupDate m) as (_ & Hwithin & _).
    apply Hwithin. split; [apply days_nonneg; lia|].
    apply Qle_shift_div_r; [reflexivity|].
    rewrite <- inject_Z_mult, <- Zle_Qle. lia. }
  pose proof (sum_ge_member _ _ (mealScores_nonneg pickupDate meals)
                (in_map (mealScore pickupDate) _ _ Hin)) as Hsum.
  rewrite <- Htotal in Hsum.
  destruct (Qlt_le_dec 0 (computeFreshnessScore pickupDate groceryItems meals))
    as [Hpos|Hnonpos]; [exact Hpos|].
  exfalso.
  assert (computeFreshnessScore pickupDate groceryItems meals * n <= 0 * n)
    by (apply Qmult_le_compat_r; [exact Hnonpos | lra]).
  lra.
Qed.

(** X13: on a pickup day that lies after every planned meal date the
    freshness component is 0, however many meal dates there are. *)
Theorem freshness_zero_after_all_meals (pickupDate : Z)
    (groceryItems : list Database.GroceryItem)
    (meals : list PerishableMealDate) :
  meals <> [] ->
  (forall m, In m meals -> (plannedDate m < pickupDate)%Z) ->
  computeFreshnessScore pickupDate groceryItems meals == 0.
Proof.
  intros Hne Hlate. apply freshness_late_zero; assumption.
Qed.

(** X14: a day that lies after every planned meal date is never
    recommended when the week has a day that is not busier and from
    which a meal date is reached within the [maxDays] of its category. *)
Theorem late_day_never_recommended (tz : Z) (weekScores : list DayScore)
    (groceryItems : list Database.GroceryItem)
    (meals : list PerishableMealDate)
    (late better : DayScore) (lateIndex : nat) (r : PickupRecommendation) :
  nth_error weekScores lateIndex = Some late ->
  In better weekScores ->
  (forall m, In m meals -> (plannedDate m < date late)%Z) ->
  (exists m, In m meals /\
             (date better <= plannedDate m
              <= date better
                 + IngredientShelfLife.maxDays
                     (IngredientShelfLife.getShelfLife (category m))
                   * msPerDay)%Z) ->
  finalScore better <= finalScore late ->
  recommendPickupDay tz weekScores groceryItems meals = Normal r ->
  dayIndex r <> lateIndex.
Proof.
  intros Hlate Hbetter Hpast Hreach Hbusy Hr Hidx.
  assert (Hne : weekScores <> []) by (destruct weekScores; [destruct Hbetter | discriminate]).
  assert (Hmeals : meals <> []).
  { destruct Hreach as (m & Hin & _). destruct meals; [destruct Hin | discriminate]. }
  destruct (recommendPickupDay_returns tz weekScores groceryItems meals Hne)
    as (r' & d & Hr' & Hk & _ & _ & Hmax & _).
  rewrite Hr in Hr'. injection Hr' as <-.
  rewrite Hidx, Hlate in Hk. injection Hk as <-.
  specialize (Hmax better Hbetter). simpl in Hmax.
  pose proof (freshness_late_zero (date late) groceryItems meals Hmeals Hpast)
    as Hzero.
  destruct Hreach as (m & Hin & Hwindow).
  pose proof (freshness_reach_pos (date better) groceryItems meals m Hin
                Hwindow) as Hpos.
  rewrite Hzero in Hmax.
  unfold CALENDAR_WEIGHT, FRESHNESS_WEIGHT in Hmax. lra.
Qed.

(** *** Concrete weeks *)


Lemma freshness_decreases_with_gap_witness :
  computeFreshnessScore Fixtures.baseDate []
    [Fixtures.makeMealDate "Seafood" (Fixtures.at_time 2 0 0)]
  <= computeFreshnessScore Fixtures.baseDate []
       [Fixtures.makeMealDate "Seafood" (Fixtures.at_time 1 0 0)].
Proof.
  apply freshness_decreases_with_gap; [reflexivity|].
  vm_compute. split; discriminate.
Defined.

Lemma freshness_zero_after_all_meals_witness :
  computeFreshnessScore (Fixtures.at_time 3 0 0) []
    [Fixtures.makeMealDate "Seafood" (Fixtures.at_time 1 0 0);
     Fixtures.makeMealDate "Dairy" (Fixtures.at_time 2 0 0)] == 0.
Proof.
  apply freshness_zero_after_all_meals; [discriminate|].
  intros m [<-|[<-|[]]]; vm_compute; reflexivity.
Defined.

(** Seafood on Saturday: Sunday, the day after, is not recommended,
    Saturday being freer and in time. *)
Lemma late_day_never_recommended_witness :
  exists r : PickupRecommendation,
    recommendPickupDay 0 Fixtures.weekScores []
      [Fixtures.makeMealDate "Seafood" (Fixtures.at_time 5 0 0)]
    = Normal r /\
    dayIndex r <> 6%nat.
Proof.
  assert (Hr : exists r,
            recommendPickupDay 0 Fixtures.weekScores []
              [Fixtures.makeMealDate "Seafood" (Fixtures.at_time 5 0 0)]
            = Normal r)
    by (vm_compute; eexists; reflexivity).
  destruct Hr as [r Hr]. exists r. split; [exact Hr|].
  apply (late_day_never_recommended 0 Fixtures.weekScores []
           [Fixtures.makeMealDate "Seafood" (Fixtures.at_time 5 0 0)]
           (Fixtures.makeDayScore (Fixtures.at_time 6 0 0) 15 exploratory)
           (Fixtures.makeDayScore (Fixtures.at_time 5 0 0) 10 exploratory)
           6%nat r).
  - reflexivity.
  - simpl. tauto.
  - intros m [<-|[]]. vm_compute. reflexivity.
  - eexists. split; [left; reflexivity|]. vm_compute. split; discriminate.
  - vm_compute. discriminate.
  - exact Hr.
Defined.

End PickupOptimizerExtras.


(** ** The calendar service and the week preview *)

Module WeekPreviewFacts.
Import Js JsObject Calendar JsFacts ScoringEngineFacts ScoringEngineExtras.
Import PickupOptimizerFacts CalendarService WeekPreviewActions.
Import WeekPreviewClient.

(** *** Objects *)

Lemma objGet_objSet_same {V : Type} (o : Obj V) (key : string) (value : V) :
  objGet (objSet o key value) key = Some value.
Proof.
  induction o as [|[k v] rest IH]; simpl.
  - now rewrite String.eqb_refl.
  - destruct (String.eqb k key) eqn:Hk; simpl; rewrite Hk;
      [reflexivity | exact IH].
Qed.

Lemma objGet_objSet_other {V : Type} (o : Obj V) (key key' : string)
    (value : V) :
  key <> key' -> objGet (objSet o key value) key' = objGet o key'.
Proof.
  intros Hne. induction o as [|[k v] rest IH]; simpl.
  - destruct (String.eqb_spec key key'); [congruence | reflexivity].
  - destruct (String.eqb_spec k key) as [->|Hk]; simpl.
    + destruct (String.eqb_spec key key'); [congruence | reflexivity].
    + destruct (String.eqb k key'); [reflexivity | exact IH].
Qed.

Lemma objGet_objDelete_same {V : Type} (o : Obj V) (key : string) :
  objGet (objDelete o key) key = None.
Proof.
  induction o as [|[k v] rest IH]; simpl; [reflexivity|].
  destruct (String.eqb k key) eqn:Hk; simpl; [exact IH|].
  rewrite Hk. exact IH.
Qed.

Lemma objGet_objDelete_other {V : Type} (o : Obj V) (key key' : string) :
  key <> key' -> objGet (objDelete o key) key' = objGet o key'.
Proof.
  intros Hne. induction o as [|[k v] rest IH]; simpl; [reflexivity|].
  destruct (String.eqb_spec k key) as [->|Hk]; simpl.
  - destruct (String.eqb_spec key key'); [congruence | exact IH].
  - destruct (String.eqb k key'); [reflexivity | exact IH].
Qed.

Lemma objSet_objSet_same {V : Type} (o : Obj V) (key : string) (v v' : V) :
  objSet (objSet o key v) key v' = objSet o key v'.
Proof.
  induction o as [|[k w] rest IH]; simpl.
  - now rewrite String.eqb_refl.
  - destruct (String.eqb k key) eqn:Hk; simpl; rewrite Hk;
      [reflexivity | now rewrite IH].
Qed.

(** *** [fetchAllEvents] *)

Lemma collectFulfilled_from (results : list (Settled (list CalendarEvent))) :
  forall acc,
    fold_left
      (fun allEvents result =>
         match result with
         | fulfilled value => allEvents ++ value
         | rejected _ => allEvents
         end)
      results acc
    = acc ++ flat_map (fun result =>
                         match result with
                         | fulfilled value => value
                         | rejected _ => []
                         end) results.
Proof.
  induction results as [|r rest IH]; intros acc; simpl.
  - now rewrite app_nil_r.
  - rewrite IH. destruct r; [now rewrite app_assoc | reflexivity].
Qed.

Lemma fetchAllEvents_sorted
    (fetchFrom : CalendarSource -> Settled (list CalendarEvent))
    (user : option string) (sources : list CalendarSource)
    (events : list CalendarEvent) :
  fetchAllEvents fetchFrom user sources = PickupOptimizer.Normal events ->
  StronglySorted (fun a b => (startTime a <= startTime b)%Z) events.
Proof.
  unfold fetchAllEvents. destruct user as [userId|]; [|discriminate].
  destruct (List.length sources =? 0)%nat; intros H; injection H as <-.
  - constructor.
  - apply Array_sort_byStartTime_sorted.
Qed.

(** X15: without a session the call throws; with one it never does.
    The events it returns are those of the providers whose request
    succeeded, each one once, in ascending order of start time; a
    provider whose request failed contributes nothing. *)
Theorem fetchAllEvents_merges_sorted
    (fetchFrom : CalendarSource -> Settled (list CalendarEvent))
    (userId : string) (sources : list CalendarSource) :
  fetchAllEvents fetchFrom None sources
  = PickupOptimizer.Throw "Not authenticated" /\
  exists events : list CalendarEvent,
    fetchAllEvents fetchFrom (Some userId) sources
    = PickupOptimizer.Normal events /\
    StronglySorted (fun a b => (startTime a <= startTime b)%Z) events /\
    Permutation events
      (flat_map (fun source =>
                   match fetchFrom source with
                   | fulfilled value => value
                   | rejected _ => []
                   end) sources).
Proof.
  split; [reflexivity|]. unfold fetchAllEvents.
  destruct sources as [|s rest].
  - exists []. repeat split; constructor.
  - change (List.length (s :: rest) =? 0)%nat with false. cbv iota.
    eexists. split; [reflexivity|]. split.
    + apply (fetchAllEvents_sorted fetchFrom (Some userId) (s :: rest)).
      reflexivity.
    + eapply perm_trans; [symmetry; apply Array_sort_perm|].
      unfold collectFulfilled. rewrite collectFulfilled_from, app_nil_l.
      rewrite flat_map_concat_map, map_map, <- flat_map_concat_map.
      apply Permutation_refl.
Qed.

Lemma Array_sort_of_sorted (l : list CalendarEvent) :
  StronglySorted (fun a b => (startTime a <= startTime b)%Z) l ->
  Array_sort ScoringEngine.byStartTime l = l.
Proof.
  induction 1 as [|x xs Hxs IH Hx]; [reflexivity|].
  simpl. rewrite IH. destruct xs as [|y ys]; [reflexivity|].
  simpl. inversion Hx; subst.
  assert (Hc : Qle_bool (ScoringEngine.byStartTime x y) 0 = true)
    by (apply startTime_le_iff; assumption).
  now rewrite Hc.
Qed.

Lemma filter_sorted (f : CalendarEvent -> bool) (l : list CalendarEvent) :
  StronglySorted (fun a b => (startTime a <= startTime b)%Z) l ->
  StronglySorted (fun a b => (startTime a <= startTime b)%Z) (filter f l).
Proof.
  induction 1 as [|x xs Hxs IH Hx]; simpl; [constructor|].
  destruct (f x); [|exact IH].
  constructor; [exact IH|].
  rewrite Forall_forall in *. intros y Hy. apply filter_In in Hy.
  apply Hx, Hy.
Qed.

(** X16: on the events that [fetchAllEvents] returns, the sort inside
    the signal changes nothing: the events of any day are already in
    the order in which the signal walks them. *)
Theorem compute_sort_keeps_fetched_order (tz : Z)
    (fetchFrom : CalendarSource -> Settled (list CalendarEvent))
    (user : option string) (sources : list CalendarSource)
    (events : list CalendarEvent) (date : Z) :
  fetchAllEvents fetchFrom user sources = PickupOptimizer.Normal events ->
  Array_sort ScoringEngine.byStartTime (ScoringEngine.eventsOnDate tz events date)
  = ScoringEngine.eventsOnDate tz events date.
Proof.
  intros Hfetch. apply Array_sort_of_sorted.
  unfold ScoringEngine.eventsOnDate.
  destruct (ScoringEngine.localDayBounds tz date) as [dayStart dayEnd].
  apply filter_sorted.
  apply (fetchAllEvents_sorted fetchFrom user sources events Hfetch).
Qed.

(** *** [getWeekPreviewData] *)

Lemma scoreWeek_nonempty (tz : Z) (engine : ScoringEngine.DayScoreEngine)
    (events : list CalendarEvent) (weekStart : Z) :
  ScoringEngine.scoreWeek tz engine events weekStart <> [].
Proof. rewrite scoreWeek_days. discriminate. Qed.

(** X17: [getWeekPreviewData] never throws: the week it hands to
    [recommendPickupDay] is never empty.  With a session, a connected
    calendar and fetched events it returns seven day scores and a
    pickup index below 7 that names a day of the lowest final score. *)
Theorem getWeekPreviewData_returns (tz : Z) (user : option string)
    (connected : list CalendarSource) (weekOf : string) (startDate : Z)
    (fetched : PickupOptimizer.Completion (list CalendarEvent)) :
  exists result : PreviewResult,
    getWeekPreviewData tz user connected weekOf startDate fetched
    = PickupOptimizer.Normal result /\
    match user, connected, fetched with
    | Some _, _ :: _, PickupOptimizer.Normal _ =>
        exists (data : WeekPreviewData) (chosen : DayScoreData),
          result = PreviewOk data /\
          List.length (dayScores data) = 7%nat /\
          (pr_dayIndex (pickupRecommendation data) < 7)%nat /\
          nth_error (dayScores data) (pr_dayIndex (pickupRecommendation data))
          = Some chosen /\
          Forall (fun ds => ds_finalScore chosen <= ds_finalScore ds)
            (dayScores data) /\
          pickupDayName (pickupRecommendation data) <> None
    | _, _, _ => exists error needsCalendar,
                   result = PreviewError error needsCalendar
    end.
Proof.
  unfold getWeekPreviewData.
  destruct user as [userId|]; [|eexists; split; [reflexivity|]; eauto].
  destruct connected as [|c cs]; [eexists; split; [reflexivity|]; eauto|].
  change (List.length (c :: cs) =? 0)%nat with false. cbv iota.
  destruct fetched as [events|message];
    [|eexists; split; [reflexivity|]; eauto].
  cbv zeta.
  set (scores := ScoringEngine.scoreWeek tz
                   (ScoringEngine.new_DayScoreEngine tz None) events
                   startDate).
  destruct (recommendPickupDay_returns tz scores [] []
              (scoreWeek_nonempty _ _ _ _))
    as (r & d & Hr & Hk & _ & _ & Hmax & _).
  rewrite Hr. eexists. split; [reflexivity|].
  eexists. exists {| ds_date := date d; ds_finalScore := finalScore d;
                     ds_tier := tier d;
                     ds_reasoning :=
                       match arrayAt (signalBreakdown d) 0 with
                       | Some first => reasoning first
                       | None => ""%string
                       end |}.
  split; [reflexivity|].
  cbn [dayScores pickupRecommendation pr_dayIndex].
  assert (Hlen : List.length scores = 7%nat)
    by (unfold scores; rewrite scoreWeek_days, length_map, length_seq;
        reflexivity).
  split; [rewrite length_map; exact Hlen|].
  split; [rewrite <- Hlen; apply nth_error_Some; congruence|].
  split; [rewrite nth_error_map, Hk; reflexivity|].
  split;
    [|unfold pickupDayName; cbn [pr_dayIndex pickupRecommendation];
      apply nth_error_Some; simpl List.length; rewrite <- Hlen;
      apply nth_error_Some; congruence].
  apply Forall_forall. intros ds Hds. apply in_map_iff in Hds.
  destruct Hds as (d' & <- & Hd'). cbn [ds_finalScore].
  specialize (Hmax d' Hd'). simpl in Hmax.
  unfold PickupOptimizer.computeFreshnessScore in Hmax. simpl in Hmax.
  unfold PickupOptimizer.CALENDAR_WEIGHT, PickupOptimizer.FRESHNESS_WEIGHT
    in Hmax. lra.
Qed.

(** *** The weekday of a scored day *)

Lemma localDay_plus_days (tz t i : Z) :
  localDay tz (t + i * msPerDay) = (localDay tz t + i)%Z.
Proof.
  unfold localDay.
  replace (t + i * msPerDay + tz)%Z with (t + tz + i * msPerDay)%Z by lia.
  apply Z.div_add. discriminate.
Qed.

Lemma scoreWeek_weekdays (tz : Z)
    (engine : ScoringEngine.DayScoreEngine) (events : list CalendarEvent)
    (weekStart : Z) :
  getDay tz weekStart = 1%Z ->
  map (fun d => weekdayLong tz (date d))
    (ScoringEngine.scoreWeek tz engine events weekStart)
  = dayNames.
Proof.
  intros Hmonday. rewrite scoreWeek_days, map_map.
  set (L := localDay tz weekStart).
  assert (Hday : forall i : nat,
             weekdayLong tz
               (date (ScoringEngine.scoreWeekDay tz engine events weekStart
                        (Z.of_nat i)))
             = match ((L + Z.of_nat i + 4) mod 7)%Z with
               | 0%Z => "Sunday"
               | 1%Z => "Monday"
               | 2%Z => "Tuesday"
               | 3%Z => "Wednesday"
               | 4%Z => "Thursday"
               | 5%Z => "Friday"
               | _ => "Saturday"
               end%string).
  { intros i. rewrite scoreWeekDay_date. unfold weekdayLong, getDay.
    now rewrite localDay_plus_days. }
  rewrite (map_ext _ _ Hday). clear Hday.
  unfold getDay in Hmonday. fold L in Hmonday.
  cbn [map seq Z.of_nat Pos.of_succ_nat Pos.succ]. clearbody L.
  replace ((L + 0 + 4) mod 7)%Z with 1%Z
    by (Z.to_euclidean_division_equations; lia).
  replace ((L + 1 + 4) mod 7)%Z with 2%Z
    by (Z.to_euclidean_division_equations; lia).
  replace ((L + 2 + 4) mod 7)%Z with 3%Z
    by (Z.to_euclidean_division_equations; lia).
  replace ((L + 3 + 4) mod 7)%Z with 4%Z
    by (Z.to_euclidean_division_equations; lia).
  replace ((L + 4 + 4) mod 7)%Z with 5%Z
    by (Z.to_euclidean_division_equations; lia).
  replace ((L + 5 + 4) mod 7)%Z with 6%Z
    by (Z.to_euclidean_division_equations; lia).
  replace ((L + 6 + 4) mod 7)%Z with 0%Z
    by (Z.to_euclidean_division_equations; lia).
  reflexivity.
Qed.

(** X18: when the week starts on a local Monday, the seven days of
    [scoreWeek] fall on Monday to Sunday in local time: entry [i] is the
    day that the week preview labels [dayNames[i]]. *)
Theorem scoreWeek_days_match_dayNames (tz : Z)
    (engine : ScoringEngine.DayScoreEngine) (events : list CalendarEvent)
    (weekStart : Z) :
  getDay tz weekStart = 1%Z ->
  map (fun d => weekdayLong tz (date d))
    (ScoringEngine.scoreWeek tz engine events weekStart)
  = dayNames /\
  forall i, map (fun d => weekdayLong tz (date d))
              (ScoringEngine.scoreWeek tz engine events
                 (weekStart + 7 * i * msPerDay))
            = dayNames.
Proof.
  intros Hmonday. split; [apply scoreWeek_weekdays, Hmonday|].
  intros i. apply scoreWeek_weekdays.
  unfold getDay in *.
  replace (weekStart + 7 * i * msPerDay)%Z
    with (weekStart + (7 * i) * msPerDay)%Z by lia.
  rewrite localDay_plus_days.
  Z.to_euclidean_division_equations; lia.
Qed.

(** X19: for a date at UTC midnight (a date-only string) the signal
    scores the civil day that the UTC fields name.  East of UTC the
    weekday that [buildReasoning] prints for that date is the weekday of
    the scored day; west of UTC it is the weekday before it. *)
Theorem reasoning_weekday_of_utc_midnight (tz date : Z) :
  (date mod msPerDay = 0)%Z ->
  (- msPerDay < tz < msPerDay)%Z ->
  let scoredDayStart := fst (ScoringEngine.localDayBounds tz date) in
  getDay tz date
  = if (tz <? 0)%Z then ((getDay tz scoredDayStart + 6) mod 7)%Z
    else getDay tz scoredDayStart.
Proof.
  intros Hmidnight Hzone scoredDayStart. subst scoredDayStart.
  unfold ScoringEngine.localDayBounds, getDay, localDay, Date_local, utcDay,
    msPerDay, msPerHour, msPerMinute, msPerSecond in *.
  simpl fst.
  destruct (Z.ltb_spec tz 0) as [Hwest|Heast];
    Z.to_euclidean_division_equations; lia.
Qed.

(** *** The complexity map *)

Lemma dayNames_beyond (i : nat) :
  (7 <= i)%nat ->
  propertyKey (nth_error WeekPreviewActions.dayNames i) = "undefined"%string.
Proof.
  intros Hi.
  assert (H : nth_error WeekPreviewActions.dayNames i = None)
    by (apply nth_error_None; simpl; lia).
  now rewrite H.
Qed.

Lemma dayNames_key_injective (i j : nat) (name : string) :
  nth_error WeekPreviewActions.dayNames i = Some name ->
  propertyKey (nth_error WeekPreviewActions.dayNames j) = name ->
  i = j.
Proof.
  intros Hi Hj.
  do 7 (destruct i as [|i];
        [ injection Hi as <-;
          do 7 (destruct j as [|j];
                [first [reflexivity | simpl in Hj; discriminate Hj]|]);
          destruct j; simpl in Hj; discriminate Hj
        | ]).
  destruct i; discriminate Hi.
Qed.

Lemma last_cons_default {A : Type} (l : list A) (a d : A) :
  last (a :: l) d = last l a.
Proof.
  revert a d. induction l as [|b l' IH]; intros a d; [reflexivity|].
  change (last (a :: b :: l') d) with (last (b :: l') d).
  now rewrite !IH.
Qed.

Lemma fillComplexityMap_tail (userAdjustments : Obj ComplexityTier)
    (rest : list DayScore) :
  forall (s : DayScore) (i : nat) (complexityMap : Obj ComplexityTier),
    (7 <= i)%nat ->
    fillComplexityMap userAdjustments i (s :: rest) complexityMap
    = objSet complexityMap "undefined"
        match objGet userAdjustments "undefined" with
        | Some adjusted => adjusted
        | None => tier (last rest s)
        end.
Proof.
  induction rest as [|s' rest' IH]; intros s i cm Hi.
  - simpl. now rewrite (dayNames_beyond i Hi).
  - change (fillComplexityMap userAdjustments i (s :: s' :: rest') cm)
      with (fillComplexityMap userAdjustments (S i) (s' :: rest')
              (objSet cm (propertyKey (nth_error WeekPreviewActions.dayNames i))
                 match objGet userAdjustments
                         (propertyKey
                            (nth_error WeekPreviewActions.dayNames i)) with
                 | Some adjusted => adjusted
                 | None => tier s
                 end)).
    rewrite IH by lia. rewrite (dayNames_beyond i Hi).
    rewrite objSet_objSet_same, last_cons_default. reflexivity.
Qed.

Lemma fillComplexityMap_app (userAdjustments : Obj ComplexityTier)
    (l1 l2 : list DayScore) :
  forall (i : nat) (complexityMap : Obj ComplexityTier),
    fillComplexityMap userAdjustments i (l1 ++ l2) complexityMap
    = fillComplexityMap userAdjustments (i + List.length l1) l2
        (fillComplexityMap userAdjustments i l1 complexityMap).
Proof.
  induction l1 as [|s rest IH]; intros i cm; simpl.
  - now rewrite Nat.add_0_r.
  - rewrite IH. f_equal. lia.
Qed.

(** X20: after a successful insert, the complexity map holds one entry
    per day name, Monday first, for the first seven day scores: the
    user's adjustment for that day name when there is one, the day's own
    tier otherwise.  Day scores beyond the seventh have no day name:
    they share the single key ["undefined"], which keeps the value of
    the last of them. *)
Theorem complexityMap_entries
    (insertWeekScore : WeekScoreInsert -> option string)
    (user : option string) (weekOf : string) (dayScores : list DayScore)
    (userAdjustments : Obj ComplexityTier)
    (pickupDay pickupReasoning : option string)
    (weekScoreId : string) (complexityMap : Obj ComplexityTier) :
  saveWeekScoresAndGenerate insertWeekScore user weekOf dayScores
    userAdjustments pickupDay pickupReasoning
  = SaveSuccess weekScoreId complexityMap ->
  let chosen (name : string) (s : DayScore) : ComplexityTier :=
    match objGet userAdjustments name with
    | Some adjusted => adjusted
    | None => tier s
    end in
  complexityMap
  = map (fun entry => (fst entry, chosen (fst entry) (snd entry)))
      (combine WeekPreviewActions.dayNames dayScores)
    ++ match skipn 7 dayScores with
       | [] => []
       | s :: rest => [("undefined"%string, chosen "undefined"%string (last rest s))]
       end.
Proof.
  unfold saveWeekScoresAndGenerate. destruct user as [userId|]; [|discriminate].
  destruct (insertWeekScore _) as [id|]; [|discriminate].
  intros H. cbv zeta. injection H as _ <-.
  destruct dayScores as [|d0 [|d1 [|d2 [|d3 [|d4 [|d5 [|d6 [|d7 rest]]]]]]]];
    try reflexivity.
  change (skipn 7 (d0 :: d1 :: d2 :: d3 :: d4 :: d5 :: d6 :: d7 :: rest))
    with (d7 :: rest).
  change (d0 :: d1 :: d2 :: d3 :: d4 :: d5 :: d6 :: d7 :: rest)
    with ([d0; d1; d2; d3; d4; d5; d6] ++ d7 :: rest).
  rewrite fillComplexityMap_app, fillComplexityMap_tail by (simpl; lia).
  reflexivity.
Qed.

Lemma fillComplexityMap_keeps (userAdjustments : Obj ComplexityTier)
    (name : string) (dayScores : list DayScore) :
  forall (i : nat) (complexityMap : Obj ComplexityTier),
    (forall j, (i <= j)%nat ->
               propertyKey (nth_error WeekPreviewActions.dayNames j) <> name) ->
    objGet (fillComplexityMap userAdjustments i dayScores complexityMap) name
    = objGet complexityMap name.
Proof.
  induction dayScores as [|s rest IH]; intros i cm Hkeys; [reflexivity|].
  simpl. rewrite IH by (intros j Hj; apply Hkeys; lia).
  apply objGet_objSet_other. apply Hkeys. lia.
Qed.

Lemma fillComplexityMap_get (userAdjustments : Obj ComplexityTier)
    (name : string) (dayScores : list DayScore) :
  forall (k i : nat) (s : DayScore) (complexityMap : Obj ComplexityTier),
    nth_error WeekPreviewActions.dayNames (i + k) = Some name ->
    nth_error dayScores k = Some s ->
    objGet (fillComplexityMap userAdjustments i dayScores complexityMap) name
    = Some match objGet userAdjustments name with
           | Some adjusted => adjusted
           | None => tier s
           end.
Proof.
  induction dayScores as [|s0 rest IH]; intros [|k] i s cm Hname Hs;
    simpl in Hs; try discriminate.
  - injection Hs as ->. rewrite Nat.add_0_r in Hname. simpl.
    rewrite fillComplexityMap_keeps.
    + rewrite Hname. simpl. apply objGet_objSet_same.
    + intros j Hj Hkey.
      pose proof (dayNames_key_injective i j name Hname Hkey). lia.
  - simpl. apply (IH k (S i) s); [|exact Hs].
    rewrite <- Hname. f_equal. lia.
Qed.

(** The tier cycle. *)
Lemma nextTierOf_cycle (t : ComplexityTier) :
  nextTierOf t <> t /\ nextTierOf (nextTierOf (nextTierOf t)) = t.
Proof. destruct t; split; (discriminate || reflexivity). Qed.

Lemma tier_eqb_eq (a b : ComplexityTier) : tier_eqb a b = true <-> a = b.
Proof. destruct a, b; simpl; split; (discriminate || reflexivity). Qed.

Lemma indexOf_dayNames (i : nat) (name : string) :
  nth_error WeekPreviewClient.dayNames i = Some name ->
  indexOf String.eqb WeekPreviewClient.dayNames name = Z.of_nat i.
Proof.
  intros Hi.
  do 7 (destruct i as [|i]; [injection Hi as <-; reflexivity|]).
  destruct i; discriminate Hi.
Qed.

Lemma originalTier_of_day (initialDayScores : list DayScoreData) (i : nat)
    (name : string) :
  nth_error WeekPreviewClient.dayNames i = Some name ->
  option_map ds_tier
    (arrayAt initialDayScores
       (indexOf String.eqb WeekPreviewClient.dayNames name))
  = option_map ds_tier (nth_error initialDayScores i).
Proof.
  intros Hi. rewrite (indexOf_dayNames i name Hi). unfold arrayAt.
  destruct (Z.ltb_spec (Z.of_nat i) 0); [lia|]. now rewrite Nat2Z.id.
Qed.

(** X21: a click on a displayed day moves the tier shown for that day
    to the next one of the cycle quick, standard, exploratory and
    leaves the tier shown for every other day as it was; the cycle has
    period three, so three clicks show the first tier again. *)
Theorem handleDayClick_cycles (initialDayScores : list DayScoreData)
    (overrides : Obj ComplexityTier) (i : nat) (name : string)
    (shown : DayScoreData) :
  nth_error WeekPreviewClient.dayNames i = Some name ->
  nth_error initialDayScores i = Some shown ->
  let current := getEffectiveTier initialDayScores overrides i in
  let next := handleDayClick initialDayScores name current overrides in
  getEffectiveTier initialDayScores next i = nextTierOf current /\
  (forall j, j <> i ->
             getEffectiveTier initialDayScores next j
             = getEffectiveTier initialDayScores overrides j) /\
  nextTierOf current <> current /\
  nextTierOf (nextTierOf (nextTierOf current)) = current.
Proof.
  intros Hname Hshown current next.
  pose proof (nextTierOf_cycle current) as [Hmoves Hperiod].
  split; [|split; [|split; assumption]].
  - subst next. unfold handleDayClick.
    rewrite (originalTier_of_day _ i name Hname), Hshown. simpl option_map.
    unfold getEffectiveTier at 1. rewrite Hname. simpl propertyKey.
    destruct (tier_is (nextTierOf current) (Some (ds_tier shown))) eqn:Hback.
    + rewrite objGet_objDelete_same, Hshown.
      simpl in Hback. apply tier_eqb_eq in Hback. now rewrite Hback.
    + now rewrite objGet_objSet_same.
  - intros j Hj. subst next. unfold handleDayClick, getEffectiveTier.
    assert (Hkey : name
                   <> propertyKey (nth_error WeekPreviewClient.dayNames j)).
    { intros Heq. apply Hj. symmetry.
      apply (dayNames_key_injective i j name Hname). now symmetry. }
    destruct (tier_is _ _).
    + now rewrite objGet_objDelete_other.
    + now rewrite objGet_objSet_other.
Qed.

(** X22: from the empty state, after any sequence of clicks, a
    displayed day is marked as adjusted (its name is a key of
    [overrides]) exactly when the tier shown for it differs from the
    tier the calendar gave it: the state never stores an override equal
    to the original tier. *)
Theorem overrides_mark_real_changes (initialDayScores : list DayScoreData)
    (clicks : list (string * ComplexityTier)) (i : nat) (name : string)
    (shown : DayScoreData) :
  nth_error WeekPreviewClient.dayNames i = Some name ->
  nth_error initialDayScores i = Some shown ->
  let overrides :=
    fold_left
      (fun prev click =>
         handleDayClick initialDayScores (fst click) (snd click) prev)
      clicks (resetOverrides []) in
  objHas overrides name
  = negb (tier_eqb (getEffectiveTier initialDayScores overrides i)
            (ds_tier shown)).
Proof.
  intros Hname Hshown overrides.
  assert (Hinv : objGet overrides name <> Some (ds_tier shown)).
  { subst overrides. unfold resetOverrides.
    assert (Hgen : forall prev,
               objGet prev name <> Some (ds_tier shown) ->
               objGet
                 (fold_left
                    (fun prev click =>
                       handleDayClick initialDayScores (fst click)
                         (snd click) prev) clicks prev) name
               <> Some (ds_tier shown)).
    { induction clicks as [|[clicked t] rest IH]; intros prev Hprev;
        [exact Hprev|].
      simpl. apply IH. unfold handleDayClick.
      destruct (String.eqb_spec clicked name) as [->|Hother].
      - rewrite (originalTier_of_day _ i name Hname), Hshown.
        simpl option_map.
        destruct (tier_is (nextTierOf t) (Some (ds_tier shown))) eqn:Hback.
        + rewrite objGet_objDelete_same. discriminate.
        + rewrite objGet_objSet_same. intros Heq. injection Heq as Heq.
          simpl in Hback. rewrite Heq in Hback.
          destruct (ds_tier shown); discriminate.
      - destruct (tier_is _ _).
        + now rewrite objGet_objDelete_other.
        + now rewrite objGet_objSet_other. }
    apply Hgen. discriminate. }
  unfold objHas, getEffectiveTier. rewrite Hname. simpl propertyKey.
  destruct (objGet overrides name) as [t|].
  - destruct (tier_eqb t (ds_tier shown)) eqn:Heq; [|reflexivity].
    apply tier_eqb_eq in Heq. congruence.
  - rewrite Hshown. destruct (ds_tier shown); reflexivity.
Qed.

(** X23: what [handleGenerate] saves is what the preview shows: after a
    successful insert the complexity map gives, for each displayed day,
    the effective tier of that day. *)
Theorem saved_map_is_shown_tiers
    (insertWeekScore : WeekScoreInsert -> option string)
    (user : option string) (initialData : WeekPreviewData)
    (overrides : Obj ComplexityTier) (weekScoreId : string)
    (complexityMap : Obj ComplexityTier) (i : nat) (name : string)
    (shown : DayScoreData) :
  handleGenerate insertWeekScore user initialData overrides
  = SaveSuccess weekScoreId complexityMap ->
  nth_error WeekPreviewClient.dayNames i = Some name ->
  nth_error (dayScores initialData) i = Some shown ->
  objGet complexityMap name
  = Some (getEffectiveTier (dayScores initialData) overrides i).
Proof.
  unfold handleGenerate, saveWeekScoresAndGenerate.
  destruct user as [userId|]; [|discriminate].
  destruct (insertWeekScore _) as [id|]; [|discriminate].
  intros H Hname Hshown. injection H as _ <-.
  rewrite (fillComplexityMap_get overrides name _ i 0
             {| date := ds_date shown; finalScore := ds_finalScore shown;
                tier := ds_tier shown;
                signalBreakdown :=
                  [{| score := ds_finalScore shown;
                      reasoning := ds_reasoning shown; rawData := [] |}] |}).
  - unfold getEffectiveTier. rewrite Hname, Hshown. reflexivity.
  - exact Hname.
  - unfold generateDayScores. rewrite nth_error_map, Hshown. reflexivity.
Qed.

(** *** The day named in the pickup text *)

Lemma recommendPickupDay_reasoning (tz : Z) (weekScores : list DayScore)
    (groceryItems : list Database.GroceryItem)
    (meals : list PickupOptimizer.PerishableMealDate) :
  weekScores <> [] ->
  exists (r : PickupOptimizer.PickupRecommendation) (d : DayScore),
    PickupOptimizer.recommendPickupDay tz weekScores groceryItems meals
    = PickupOptimizer.Normal r /\
    nth_error weekScores (PickupOptimizer.dayIndex r) = Some d /\
    PickupOptimizer.reasoning r
    = PickupOptimizer.buildReasoning tz d (100 - finalScore d)
        (PickupOptimizer.computeFreshnessScore (date d) groceryItems meals)
        groceryItems meals.
Proof.
  intros Hne.
  destruct (sorted_candidates_head weekScores groceryItems meals Hne)
    as (k & d & rest & Hsort & Hk & _).
  unfold PickupOptimizer.recommendPickupDay.
  destruct weekScores as [|d0 ws]; [congruence|].
  change (List.length (d0 :: ws) =? 0)%nat with false. cbv iota.
  rewrite Hsort. unfold PickupOptimizer.recommendBest.
  eexists. exists d. split; [reflexivity|]. split; [exact Hk | reflexivity].
Qed.

Lemma buildReasoning_begins (tz : Z) (d : DayScore)
    (calendarScore freshnessScore : Q)
    (groceryItems : list Database.GroceryItem)
    (meals : list PickupOptimizer.PerishableMealDate) :
  exists rest : string,
    PickupOptimizer.buildReasoning tz d calendarScore freshnessScore
      groceryItems meals
    = ((weekdayLong tz (date d) ++ " is recommended for grocery pickup.")
       ++ " " ++ rest)%string.
Proof.
  unfold PickupOptimizer.buildReasoning.
  destruct (0 <? List.length _)%nat; eexists; reflexivity.
Qed.

(** X24: when the previewed week starts on a local Monday, the pickup
    text begins with the name of the very day that the preview shows as
    recommended pickup day, [dayNames[dayIndex]]. *)
Theorem pickup_text_names_shown_day (tz : Z) (userId : string)
    (connected : list CalendarSource) (weekOf : string) (startDate : Z)
    (events : list CalendarEvent) (data : WeekPreviewData) :
  getDay tz startDate = 1%Z ->
  getWeekPreviewData tz (Some userId) connected weekOf startDate
    (PickupOptimizer.Normal events)
  = PickupOptimizer.Normal (PreviewOk data) ->
  exists name rest : string,
    pickupDayName (pickupRecommendation data) = Some name /\
    pr_reasoning (pickupRecommendation data)
    = ((name ++ " is recommended for grocery pickup.") ++ " " ++ rest)%string.
Proof.
  intros Hmonday. unfold getWeekPreviewData.
  destruct connected as [|c cs]; [discriminate|].
  change (List.length (c :: cs) =? 0)%nat with false. cbv iota zeta.
  set (engine := ScoringEngine.new_DayScoreEngine tz None).
  set (scores := ScoringEngine.scoreWeek tz engine events startDate).
  destruct (recommendPickupDay_reasoning tz scores [] []
              (scoreWeek_nonempty _ _ _ _))
    as (r & d & Hr & Hk & Hreason).
  rewrite Hr. intros Hdata. injection Hdata as <-.
  cbn [pickupRecommendation pr_reasoning]. unfold pickupDayName.
  cbn [pr_dayIndex].
  destruct (buildReasoning_begins tz d (100 - finalScore d)
              (PickupOptimizer.computeFreshnessScore (date d) [] []) [] [])
    as (rest & Hbegin).
  exists (weekdayLong tz (date d)), rest. split.
  - pose proof (scoreWeek_weekdays tz engine events startDate Hmonday) as Hw.
    fold scores in Hw.
    assert (Hnames : WeekPreviewClient.dayNames
                     = map (fun d => weekdayLong tz (date d)) scores)
      by (rewrite Hw; reflexivity).
    rewrite Hnames, nth_error_map, Hk. reflexivity.
  - rewrite Hreason. exact Hbegin.
Qed.

(** *** Concrete previews *)

Lemma compute_sort_keeps_fetched_order_witness :
  let events := Array_sort CalendarService.byStartTime Fixtures.packedDay in
  Array_sort ScoringEngine.byStartTime
    (ScoringEngine.eventsOnDate 0 events Fixtures.baseDate)
  = ScoringEngine.eventsOnDate 0 events Fixtures.baseDate.
Proof.
  intros events.
  apply (compute_sort_keeps_fetched_order 0 MoreFixtures.fetchFrom
           (Some "user-1"%string) [google; apple]).
  reflexivity.
Defined.

Lemma scoreWeek_days_match_dayNames_witness :
  map (fun d => weekdayLong 0 (date d))
    (ScoringEngine.scoreWeek 0 (ScoringEngine.new_DayScoreEngine 0 None)
       Fixtures.mondayEvents Fixtures.baseDate)
  = WeekPreviewActions.dayNames.
Proof.
  destruct (scoreWeek_days_match_dayNames 0
              (ScoringEngine.new_DayScoreEngine 0 None) Fixtures.mondayEvents
              Fixtures.baseDate) as [H _]; [reflexivity | exact H].
Defined.

(** New York in winter, five hours west of UTC: the date-only Monday
    2025-02-17 is named a Sunday. *)
Lemma reasoning_weekday_of_utc_midnight_witness :
  getDay (-18000000) Fixtures.baseDate = 0%Z /\
  getDay (-18000000)
    (fst (ScoringEngine.localDayBounds (-18000000) Fixtures.baseDate)) = 1%Z.
Proof.
  split; [|reflexivity].
  rewrite (reasoning_weekday_of_utc_midnight (-18000000) Fixtures.baseDate);
    [reflexivity | reflexivity | unfold msPerDay; lia].
Defined.

Lemma complexityMap_entries_witness :
  saveWeekScoresAndGenerate MoreFixtures.insertOk (Some "user-1"%string)
    "2025-02-17" Fixtures.weekScores [("Tuesday"%string, quick)] None None
  = SaveSuccess "week-score-1"
      [("Monday"%string, quick); ("Tuesday"%string, quick);
       ("Wednesday"%string, exploratory); ("Thursday"%string, standard);
       ("Friday"%string, exploratory); ("Saturday"%string, exploratory);
       ("Sunday"%string, exploratory)].
Proof.
  assert (H : saveWeekScoresAndGenerate MoreFixtures.insertOk
                (Some "user-1"%string) "2025-02-17" Fixtures.weekScores
                [("Tuesday"%string, quick)] None None
              = SaveSuccess "week-score-1"
                  (fillComplexityMap [("Tuesday"%string, quick)] 0
                     Fixtures.weekScores [])) by reflexivity.
  rewrite H.
  rewrite (complexityMap_entries _ _ _ _ _ _ _ _ _ H). reflexivity.
Defined.

Lemma handleDayClick_cycles_witness :
  getEffectiveTier MoreFixtures.previewDays
    (handleDayClick MoreFixtures.previewDays "Monday"
       (getEffectiveTier MoreFixtures.previewDays [] 0) []) 0
  = standard.
Proof.
  rewrite (proj1 (handleDayClick_cycles MoreFixtures.previewDays [] 0
                    "Monday"
                    {| ds_date := Fixtures.at_time 0 0 0;
                       ds_finalScore := 80; ds_tier := quick;
                       ds_reasoning := "8.0h committed" |}
                    eq_refl eq_refl)).
  reflexivity.
Defined.

(** Three clicks on Monday: no adjustment is left. *)
Lemma overrides_mark_real_changes_witness :
  objHas
    (fold_left
       (fun prev click =>
          handleDayClick MoreFixtures.previewDays (fst click) (snd click)
            prev)
       [("Monday"%string, quick); ("Monday"%string, standard);
        ("Monday"%string, exploratory)] (resetOverrides []))
    "Monday" = false.
Proof.
  rewrite (overrides_mark_real_changes MoreFixtures.previewDays
             [("Monday"%string, quick); ("Monday"%string, standard);
              ("Monday"%string, exploratory)] 0 "Monday"
             {| ds_date := Fixtures.at_time 0 0 0;
                ds_finalScore := 80; ds_tier := quick;
                ds_reasoning := "8.0h committed" |}
             eq_refl eq_refl).
  reflexivity.
Defined.

Lemma saved_map_is_shown_tiers_witness :
  exists (weekScoreId : string) (complexityMap : Obj ComplexityTier),
    handleGenerate MoreFixtures.insertOk (Some "user-1"%string)
      MoreFixtures.previewData [("Tuesday"%string, standard)]
    = SaveSuccess weekScoreId complexityMap /\
    objGet complexityMap "Tuesday" = Some standard.
Proof.
  assert (Hsave : exists weekScoreId complexityMap,
            handleGenerate MoreFixtures.insertOk (Some "user-1"%string)
              MoreFixtures.previewData [("Tuesday"%string, standard)]
            = SaveSuccess weekScoreId complexityMap)
    by (vm_compute; eexists; eexists; reflexivity).
  destruct Hsave as (weekScoreId & complexityMap & Hsave).
  exists weekScoreId, complexityMap. split; [exact Hsave|].
  rewrite (saved_map_is_shown_tiers _ _ _ _ _ _ 1 "Tuesday"
             {| ds_date := Fixtures.at_time 1 0 0;
                ds_finalScore := 0; ds_tier := exploratory;
                ds_reasoning := "Completely free day" |}
             Hsave eq_refl eq_refl).
  reflexivity.
Defined.

Lemma pickup_text_names_shown_day_witness :
  exists data : WeekPreviewData,
    getWeekPreviewData 0 (Some "user-1"%string) [google] "2025-02-17"
      Fixtures.baseDate (PickupOptimizer.Normal Fixtures.mondayEvents)
    = PickupOptimizer.Normal (PreviewOk data) /\
    exists name rest : string,
      pickupDayName (pickupRecommendation data) = Some name /\
      pr_reasoning (pickupRecommendation data)
      = ((name ++ " is recommended for grocery pickup.") ++ " " ++ rest)%string.
Proof.
  assert (Hdata : exists data,
            getWeekPreviewData 0 (Some "user-1"%string) [google] "2025-02-17"
              Fixtures.baseDate (PickupOptimizer.Normal Fixtures.mondayEvents)
            = PickupOptimizer.Normal (PreviewOk data))
    by (vm_compute; eexists; reflexivity).
  destruct Hdata as (data & Hdata).
  exists data. split; [exact Hdata|].
  exact (pickup_text_names_shown_day 0 "user-1" [google] "2025-02-17"
           Fixtures.baseDate Fixtures.mondayEvents data eq_refl Hdata).
Defined.

End WeekPreviewFacts.
